(** * OGImageGrabber: a shallow embedding of [main.py] and its specification

    The program reads page URLs from [urls.txt]; for each one it fetches the
    page, extracts the Open Graph image URL, the title and the description,
    downloads the image into [dist/] and writes a [<host>.txt] metadata file.

    The four functions of [main.py] are embedded as programs of a state and
    exception monad over a [World] (file system, network clock, console).
    The collaborators the program imports ([requests], [bs4], [urllib.parse])
    are an interface, [Environment]; every theorem holds for each of its
    instances. *)

From Stdlib Require Import ZArith Ascii.
From stdpp Require Import gmap strings list pretty.

Local Open Scope Z_scope.

(** ** Python strings

    A Python [str] is modelled by a Rocq [string] whose characters stand for
    the code points below 256; [bytes] are modelled by [string] as well. *)

Module Py.

Definition LF : ascii := ascii_of_nat 10.
Definition CR : ascii := ascii_of_nat 13.
Definition nl : string := String LF "".

(** [str.isspace] on one character, for the code points below 256. *)
Definition isspace (c : ascii) : bool :=
  let n := nat_of_ascii c in
  ((9 <=? n) && (n <=? 13) || (28 <=? n) && (n <=? 32)
   || (n =? 133) || (n =? 160))%nat.

Fixpoint lstrip (s : string) : string :=
  match s with
  | String c r => if isspace c then lstrip r else s
  | EmptyString => EmptyString
  end.

Definition rstrip (s : string) : string :=
  String.rev (lstrip (String.rev s)).

(** [s.strip()] *)
Definition strip (s : string) : string := rstrip (lstrip s).

(** Truth value of a [str]: the empty string is false. *)
Definition truthy (s : string) : bool := negb (bool_decide (s = "")).

(** Truth value of a [str | None]. *)
Definition truthy_opt (o : option string) : bool :=
  match o with Some s => truthy s | None => false end.

(** [o or d] for [o : str | None] and a string [d]. *)
Definition or_else (o : option string) (d : string) : string :=
  match o with
  | Some s => if truthy s then s else d
  | None => d
  end.

(** [c in s] *)
Fixpoint contains (c : ascii) (s : string) : bool :=
  match s with
  | EmptyString => false
  | String a r => bool_decide (a = c) || contains c r
  end.

(** [all(p(c) for c in s)] *)
Fixpoint all_chars (p : ascii → bool) (s : string) : bool :=
  match s with
  | EmptyString => true
  | String c r => p c && all_chars p r
  end.

(** [s.split(sep)] for a one-character separator. *)
Fixpoint split (sep : ascii) (s : string) : list string :=
  match s with
  | EmptyString => [EmptyString]
  | String c r =>
      if bool_decide (c = sep) then EmptyString :: split sep r
      else match split sep r with
           | h :: t => String c h :: t
           | [] => [String c EmptyString]
           end
  end.

Definition startswith_slash (s : string) : bool :=
  match s with
  | String c _ => bool_decide (c = "/"%char)
  | EmptyString => false
  end.

(** Iterating over a file opened in text mode with universal newlines:
    the lines of [s], each ended by ["\n"] where the file had ["\n"],
    ["\r\n"] or ["\r"]; a last line without a line end is kept as it is. *)
Fixpoint readlines_go (cur s : string) : list string :=
  match s with
  | EmptyString => if truthy cur then [String.rev cur] else []
  | String c r =>
      if bool_decide (c = LF) then String.rev (String LF cur) :: readlines_go "" r
      else if bool_decide (c = CR) then
        match r with
        | String c' r' =>
            if bool_decide (c' = LF)
            then String.rev (String LF cur) :: readlines_go "" r'
            else String.rev (String LF cur) :: readlines_go "" r
        | EmptyString => [String.rev (String LF cur)]
        end
      else readlines_go (String c cur) r
  end.

Definition readlines (s : string) : list string := readlines_go "" s.

(** The first [n] characters of [s], and the rest. *)
Fixpoint split_at (n : nat) (s : string) : string * string :=
  match n, s with
  | S n', String c r => let '(a, b) := split_at n' r in (String c a, b)
  | _, _ => (EmptyString, s)
  end.

(** [s] cut into consecutive pieces of [n] characters (the last one may be
    shorter); [fuel] bounds the number of pieces. *)
Fixpoint pieces (fuel n : nat) (s : string) : list string :=
  match fuel with
  | O => []
  | S fuel' =>
      if truthy s
      then let '(a, b) := split_at n s in a :: pieces fuel' n b
      else []
  end.

Definition concat (l : list string) : string := foldr String.app "" l.

End Py.

(** ** [os.path] and [pathlib] *)

Module Os.

(** [posixpath.basename]: [p[p.rfind('/') + 1:]]. *)
Fixpoint basename (p : string) : string :=
  match p with
  | EmptyString => EmptyString
  | String c r =>
      if Py.contains "/" r then basename r
      else if bool_decide (c = "/"%char) then r else p
  end.

End Os.

(** A [pathlib.Path] is modelled by its [parts]: the names on the way from
    the current directory; an absolute path starts with its root. *)
Abbreviation Path := (list string).

Module Pathlib.

(** The names in a path string: empty names and ["."] are dropped. *)
Definition segments (s : string) : list string :=
  filter (λ x, x ≠ "" ∧ x ≠ ".") (Py.split "/" s).

(** POSIX keeps a root of exactly two slashes apart. *)
Definition root_of (s : string) : string :=
  match s with
  | String "/" (String "/" (String "/" _)) => "/"
  | String "/" (String "/" _) => "//"
  | _ => "/"
  end.

(** [p / s]: an absolute [s] replaces [p]. *)
Definition truediv (p : Path) (s : string) : Path :=
  if Py.startswith_slash s then root_of s :: segments s else p ++ segments s.

(** [Path(s)] *)
Definition of_string (s : string) : Path := truediv [] s.

(** [p.parent] *)
Definition parent (p : Path) : Path := removelast p.

End Pathlib.

Infix "/:" := Pathlib.truediv (at level 40, left associativity).

(** ** The collaborators: HTTP responses, parsed HTML, parsed URLs *)

Inductive Exception :=
| RequestException (msg : string)
| HTTPError (msg : string)
| ValueError (msg : string)
| OSError (msg : string).

(** [str(e)] *)
Definition exc_str (e : Exception) : string :=
  match e with
  | RequestException m | HTTPError m | ValueError m | OSError m => m
  end.

(** What [requests.get] answers: the status line, the body in the pieces in
    which it arrives, and the error that interrupts the body, if any. *)
Record Response := mkResponse {
  status_code : Z;
  reason : string;
  resp_url : string;
  raw : list string;
  broken : option Exception
}.

(** [response.text] *)
Definition text (r : Response) : string := Py.concat (raw r).

(** The tree [BeautifulSoup] builds. With [html.parser] every attribute of
    a [meta] element has a string value. *)
#[warnings="-register-all"]
Inductive Node :=
| Tag (name : string) (attrs : gmap string string) (children : list Node)
| NavigableString (s : string)
| Comment (s : string).

(** [urllib.parse.ParseResult] *)
Record ParseResult := mkParseResult {
  scheme : string;
  netloc : string;
  path : string;
  params : string;
  query : string;
  fragment : string
}.

Module Bs4.

(** The first element of the subtree of [n], in document order, whose name
    and attributes satisfy [p]. *)
Fixpoint find_node (p : string → gmap string string → bool) (n : Node)
  : option Node :=
  match n with
  | Tag name attrs children =>
      if p name attrs then Some n
      else (fix go (l : list Node) : option Node :=
              match l with
              | [] => None
              | c :: l' =>
                  match find_node p c with
                  | Some r => Some r
                  | None => go l'
                  end
              end) children
  | _ => None
  end.

(** [soup.find(...)] over the top-level nodes of the document. *)
Fixpoint find (p : string → gmap string string → bool) (soup : list Node)
  : option Node :=
  match soup with
  | [] => None
  | c :: l =>
      match find_node p c with
      | Some r => Some r
      | None => find p l
      end
  end.

(** [tag.descendants]: the nodes of a subtree in document order, the root
    first. *)
Fixpoint descendants_node (n : Node) : list Node :=
  n :: match n with
       | Tag _ _ children =>
           (fix go (l : list Node) : list Node :=
              match l with
              | [] => []
              | c :: l' => descendants_node c ++ go l'
              end) children
       | _ => []
       end.

(** [soup.descendants] *)
Definition descendants (soup : list Node) : list Node :=
  flat_map descendants_node soup.

(** An element whose name and attributes satisfy [p]. *)
Definition matches (p : string → gmap string string → bool) (n : Node) : bool :=
  match n with
  | Tag name attrs _ => p name attrs
  | _ => false
  end.

(** [find('title')] *)
Definition by_name (n : string) : string → gmap string string → bool :=
  λ name _, bool_decide (name = n).

(** [find('meta', property='og:image')], [find('meta', attrs={...})] *)
Definition by_attr (n k v : string) : string → gmap string string → bool :=
  λ name attrs, bool_decide (name = n) && bool_decide (attrs !! k = Some v).

(** [tag.text]: the strings below the tag, comments left out. *)
Fixpoint get_text (n : Node) : string :=
  match n with
  | Tag _ _ children =>
      (fix go (l : list Node) : string :=
         match l with
         | [] => ""
         | c :: l' => get_text c +:+ go l'
         end) children
  | NavigableString s => s
  | Comment _ => ""
  end.

(** [tag.get(key)] *)
Definition get (n : Node) (key : string) : option string :=
  match n with
  | Tag _ attrs _ => attrs !! key
  | _ => None
  end.

End Bs4.

(** The interface of the world outside [main.py]. [network n url] is the
    answer to the [n]-th request of a run when it asks for [url];
    [urljoin] and [urlparse] raise [ValueError] on some inputs; [os_denies]
    tells the paths the operating system refuses to open or create. The
    network location [urlparse] returns ends before the first slash. *)
Class Environment := {
  network : nat → string → Exception + Response;
  html_parser : string → list Node;
  urljoin : string → string → Exception + string;
  urlparse : string → Exception + ParseResult;
  os_denies : Path → option Exception;
  netloc_no_slash :
    ∀ u r, urlparse u = inr r → Py.contains "/" (netloc r) = false
}.

(** ** The world and the monad of the program *)

(** The calls of the three components, in the order they happen. *)
Inductive Event :=
| Extracted (url : string) (result : option string * option string * option string)
| Download (image_url : string) (save_path : Path)
| Save (url : string) (title description : option string) (save_path : Path).

(** [files] and [dirs] are the file system, [requests_made] counts the HTTP
    requests so far, [stdout] holds the printed lines. [calls] is a ghost
    history: it is appended to and never read. *)
Record World := mkWorld {
  files : gmap Path string;
  dirs : gset Path;
  requests_made : nat;
  stdout : list string;
  calls : list Event
}.

Definition set_files (f : gmap Path string) (w : World) : World :=
  mkWorld f (dirs w) (requests_made w) (stdout w) (calls w).
Definition set_dirs (d : gset Path) (w : World) : World :=
  mkWorld (files w) d (requests_made w) (stdout w) (calls w).
Definition tick (w : World) : World :=
  mkWorld (files w) (dirs w) (S (requests_made w)) (stdout w) (calls w).
Definition add_stdout (s : string) (w : World) : World :=
  mkWorld (files w) (dirs w) (requests_made w) (stdout w ++ [s]) (calls w).
Definition add_call (e : Event) (w : World) : World :=
  mkWorld (files w) (dirs w) (requests_made w) (stdout w) (calls w ++ [e]).

(** A computation either raises or returns, and leaves a world behind. *)
Definition M (A : Type) : Type := World → (Exception + A) * World.

Global Instance M_ret : MRet M := λ A a w, (inr a, w).
Global Instance M_bind : MBind M := λ A B f m w,
  match m w with
  | (inr a, w') => f a w'
  | (inl e, w') => (inl e, w')
  end.

Definition raise {A} (e : Exception) : M A := λ w, (inl e, w).

(** [try: m except Exception as e: h e] *)
Definition try_except {A} (m : M A) (h : Exception → M A) : M A := λ w,
  match m w with
  | (inl e, w') => h e w'
  | (inr a, w') => (inr a, w')
  end.

Definition lift {A} (r : Exception + A) : M A :=
  match r with inl e => raise e | inr a => mret a end.

Fixpoint for_each {A} (l : list A) (body : A → M ()) : M () :=
  match l with
  | [] => mret ()
  | x :: l' => body x ;; for_each l' body
  end.

(** A loop over an iterator that may raise after its last item. *)
Definition for_iter {A} (it : list A * option Exception) (body : A → M ())
  : M () :=
  for_each it.1 body ;;
  match it.2 with Some e => raise e | None => mret () end.

(** [print(s)]: the console takes every line. *)
Definition print (s : string) : M () := λ w, (inr (), add_stdout s w).

(** The ghost step that appends to the history of calls. *)
Definition record (e : Event) : M () := λ w, (inr (), add_call e w).

Definition is_dir (w : World) (p : Path) : bool :=
  bool_decide (p = [] ∨ p = ["/"] ∨ p ∈ dirs w).

Section Program.
Context `{Environment}.

(** *** Primitives of [requests], [open] and [pathlib] *)

(** [requests.get(url, stream=...)]: without [stream] the whole body is
    read before the call returns, so a broken body raises here. *)
Definition requests_get (url : string) (stream : bool) : M Response := λ w,
  match network (requests_made w) url with
  | inl e => (inl e, tick w)
  | inr r =>
      match broken r with
      | Some e => if stream then (inr r, tick w) else (inl e, tick w)
      | None => (inr r, tick w)
      end
  end.

Definition http_error_msg (r : Response) : string :=
  pretty (status_code r)
    +:+ (if status_code r <? 500 then " Client Error: " else " Server Error: ")
    +:+ reason r +:+ " for url: " +:+ resp_url r.

(** [response.raise_for_status()] *)
Definition raise_for_status (r : Response) : M () :=
  if (400 <=? status_code r) && (status_code r <? 600)
  then raise (HTTPError (http_error_msg r))
  else mret ().

(** [response.iter_content(chunk_size)]: the body in pieces of at most
    [chunk_size] bytes, then the error that interrupted it, if any. *)
Definition iter_content (chunk_size : Z) (r : Response)
  : list string * option Exception :=
  (flat_map (λ s, Py.pieces (String.length s) (Z.to_nat chunk_size) s) (raw r),
   broken r).

(** [open(p, 'w')] and [open(p, 'wb')]: the file is created or emptied.
    A path ending in [..] names a directory. *)
Definition open_w (p : Path) : M Path := λ w,
  match os_denies p with
  | Some e => (inl e, w)
  | None =>
      if is_dir w p || bool_decide (last p = Some "..")
      then (inl (OSError "Is a directory"), w)
      else if is_dir w (Pathlib.parent p)
      then (inr p, set_files (<[p := ""]> (files w)) w)
      else (inl (OSError "No such file or directory"), w)
  end.

(** [f.write(data)]: once a file is open, writing to it goes through (a
    full disk is not modelled). *)
Definition write (f : Path) (data : string) : M () := λ w,
  (inr (), set_files (<[f := default "" (files w !! f) +:+ data]> (files w)) w).

(** [open(p, 'r')]: the handle of a file read once is its content (its
    decoding is not modelled). *)
Definition open_r (p : Path) : M string := λ w,
  match os_denies p with
  | Some e => (inl e, w)
  | None =>
      match files w !! p with
      | Some s => (inr s, w)
      | None => (inl (OSError "No such file or directory"), w)
      end
  end.

(** [p.mkdir(exist_ok=True)] *)
Definition mkdir_exist_ok (p : Path) : M () := λ w,
  if is_dir w p then (inr (), w)
  else match os_denies p with
       | Some e => (inl e, w)
       | None =>
           if bool_decide (is_Some (files w !! p))
           then (inl (OSError "File exists"), w)
           else if is_dir w (Pathlib.parent p)
           then (inr (), set_dirs ({[p]} ∪ dirs w) w)
           else (inl (OSError "No such file or directory"), w)
       end.

(** *** [download_image] *)

Definition download_image (image_url : string) (save_path : Path) : M bool :=
  record (Download image_url save_path) ;;
  try_except
    (response ← requests_get image_url true ;
     raise_for_status response ;;
     parsed ← lift (urlparse image_url) ;
     let filename := Os.basename (path parsed) in
     let filename := if Py.truthy filename then filename else "image.jpg" in
     let file_path := save_path /: filename in
     f ← open_w file_path ;
     for_iter (iter_content 8192 response) (λ chunk, write f chunk) ;;
     mret true)
    (λ e,
      print ("Failed to download image " +:+ image_url +:+ ": " +:+ exc_str e) ;;
      mret false).

(** *** [get_page_metadata] *)

Definition get_page_metadata (url : string)
  : M (option string * option string * option string) :=
  result ←
    try_except
      (response ← requests_get url false ;
       raise_for_status response ;;
       let soup := html_parser (text response) in
       let title := Bs4.find (Bs4.by_name "title") soup in
       let title_text :=
         match title with
         | Some t => Some (Py.strip (Bs4.get_text t))
         | None => None
         end in
       let og_image := Bs4.find (Bs4.by_attr "meta" "property" "og:image") soup in
       og_image_url ←
         match og_image with
         | Some t =>
             match Bs4.get t "content" with
             | Some content =>
                 if Py.truthy content
                 then joined ← lift (urljoin url content) ; mret (Some joined)
                 else mret None
             | None => mret None
             end
         | None => mret None
         end ;
       let description := Bs4.find (Bs4.by_attr "meta" "name" "description") soup in
       let desc_text :=
         match description with
         | Some t =>
             match Bs4.get t "content" with
             | Some content =>
                 if Py.truthy content then Some (Py.strip content) else None
             | None => None
             end
         | None => None
         end in
       mret (og_image_url, title_text, desc_text))
      (λ e,
        print ("Failed to process URL " +:+ url +:+ ": " +:+ exc_str e) ;;
        mret (None, None, None)) ;
  record (Extracted url result) ;;
  mret result.

(** *** [save_metadata] *)

Definition save_metadata (url : string) (title description : option string)
    (save_path : Path) : M bool :=
  record (Save url title description save_path) ;;
  try_except
    (parsed ← lift (urlparse url) ;
     let filename := netloc parsed +:+ ".txt" in
     let file_path := save_path /: filename in
     f ← open_w file_path ;
     write f ("URL: " +:+ url +:+ Py.nl +:+ Py.nl) ;;
     write f ("Title: " +:+ Py.or_else title "Not found" +:+ Py.nl +:+ Py.nl) ;;
     write f ("Description: " +:+ Py.or_else description "Not found" +:+ Py.nl) ;;
     mret true)
    (λ e,
      print ("Failed to save metadata for " +:+ url +:+ ": " +:+ exc_str e) ;;
      mret false).

(** *** [main] *)

(** [[line.strip() for line in f if line.strip()]] *)
Definition read_urls (f : string) : list string :=
  flat_map (λ line, if Py.truthy (Py.strip line) then [Py.strip line] else [])
           (Py.readlines f).

(** The body of the [for url in urls] loop. *)
Definition process_url (dist_path : Path) (url : string) : M () :=
  print ("Processing " +:+ url) ;;
  '(og_image_url, title, description) ← get_page_metadata url ;
  (if Py.truthy_opt og_image_url
   then
     print ("Found og:image: " +:+ default "" og_image_url) ;;
     ok ← download_image (default "" og_image_url) dist_path ;
     if ok : bool then print ("Successfully downloaded image from " +:+ url)
     else mret ()
   else print ("No og:image found for " +:+ url)) ;;
  ok ← save_metadata url title description dist_path ;
  if ok : bool then print ("Successfully saved metadata for " +:+ url)
  else mret ().

Definition main : M Z :=
  returned ←
    try_except
      (print "Application starting..." ;;
       let dist_path := Pathlib.of_string "dist" in
       mkdir_exist_ok dist_path ;;
       f ← open_r (Pathlib.of_string "urls.txt") ;
       let urls := read_urls f in
       for_each urls (process_url dist_path) ;;
       mret None)
      (λ e,
        print ("An error occurred: " +:+ exc_str e) ;;
        mret (Some 1)) ;
  match returned with
  | Some code => mret code
  | None => mret 0
  end.

End Program.

(** ** Vocabulary of the specification *)

Section Vocabulary.
Context `{Environment}.

(** [raise_for_status] lets the response through. *)
Definition status_ok (r : Response) : bool :=
  negb ((400 <=? status_code r) && (status_code r <? 600)).

(** The request for [url] made in [w] is answered by [r], in full and with
    a success status. *)
Definition fetched (w : World) (url : string) (r : Response) : Prop :=
  network (requests_made w) url = inr r ∧ status_ok r = true
  ∧ broken r = None.

(** [open_w p] succeeds in [w]. *)
Definition can_open (w : World) (p : Path) : bool :=
  bool_decide (os_denies p = None)
  && negb (is_dir w p || bool_decide (last p = Some ".."))
  && is_dir w (Pathlib.parent p).

(** The file name [download_image] derives from the parsed image URL. *)
Definition image_name (parsed : ParseResult) : string :=
  if Py.truthy (Os.basename (path parsed)) then Os.basename (path parsed)
  else "image.jpg".

(** Everything [download_image] needs goes well: the server answers with
    a success status and a complete body, the URL parses and the file can
    be opened. *)
Definition download_succeeds (w : World) (image_url : string)
    (save_path : Path) : Prop :=
  ∃ r parsed,
    fetched w image_url r ∧ urlparse image_url = inr parsed
    ∧ can_open w (save_path /: image_name parsed) = true.

(** The three elements [get_page_metadata] looks for. *)
Definition title_element (soup : list Node) : option Node :=
  Bs4.find (Bs4.by_name "title") soup.
Definition og_image_element (soup : list Node) : option Node :=
  Bs4.find (Bs4.by_attr "meta" "property" "og:image") soup.
Definition description_element (soup : list Node) : option Node :=
  Bs4.find (Bs4.by_attr "meta" "name" "description") soup.

(** What the page offers: the trimmed text of the title element, the
    non-empty [content] of the og:image element, the trimmed non-empty
    [content] of the description element. *)
Definition title_of (soup : list Node) : option string :=
  t ← title_element soup ; Some (Py.strip (Bs4.get_text t)).
Definition og_content_of (soup : list Node) : option string :=
  t ← og_image_element soup ; x ← Bs4.get t "content" ;
  if Py.truthy x then Some x else None.
Definition description_of (soup : list Node) : option string :=
  t ← description_element soup ; x ← Bs4.get t "content" ;
  if Py.truthy x then Some (Py.strip x) else None.

(** Resolving the og:image of the page does not raise. *)
Definition og_image_resolves (url : string) (soup : list Node) : Prop :=
  ∀ t x, og_image_element soup = Some t → Bs4.get t "content" = Some x →
         x ≠ "" → ∃ j, urljoin url x = inr j.

(** The extraction of [url] fails in [w]: the page is not fetched, or
    resolving its og:image raises. *)
Definition extraction_fails (w : World) (url : string) : Prop :=
  (∀ r, ¬ fetched w url r)
  ∨ ∃ r x e, fetched w url r
             ∧ og_content_of (html_parser (text r)) = Some x
             ∧ urljoin url x = inl e.

(** The layout of a metadata file. *)
Definition metadata_document (url title description : string) : string :=
  "URL: " +:+ url +:+ Py.nl +:+ Py.nl
    +:+ "Title: " +:+ title +:+ Py.nl +:+ Py.nl
    +:+ "Description: " +:+ description +:+ Py.nl.

(** An optional value written verbatim, [Not found] standing for an absent
    one. *)
Definition verbatim_or_not_found (o : option string) : string :=
  match o with Some s => s | None => "Not found" end.

(** The URL list as the specification words it: every line trimmed, the
    empty ones discarded. *)
Definition url_list_spec (lines : list string) : list string :=
  filter (λ s, s ≠ "") (Py.strip <$> lines).

(** The calls the driver makes for one URL whose extraction returned
    [res]: the image fetcher when an image URL was found, then the
    writer. *)
Definition calls_for (dist_path : Path) (url : string)
    (res : option string * option string * option string) : list Event :=
  let '(og_image_url, title, description) := res in
  Extracted url res
    :: (if Py.truthy_opt og_image_url
        then [Download (default "" og_image_url) dist_path] else [])
    ++ [Save url title description dist_path].

Definition extracted_urls (l : list Event) : list string :=
  flat_map (λ e, match e with Extracted u _ => [u] | _ => [] end) l.

Definition saved_urls (l : list Event) : list string :=
  flat_map (λ e, match e with Save u _ _ _ => [u] | _ => [] end) l.

(** The start of [main]: [dist] can be made and [urls.txt] can be read. *)
Definition dist_ok (w : World) : bool :=
  is_dir w ["dist"]
  || bool_decide (os_denies ["dist"] = None)
     && negb (bool_decide (is_Some (files w !! ["dist"]))).

Definition input_ok (w : World) : bool :=
  bool_decide (os_denies ["urls.txt"] = None)
  && bool_decide (is_Some (files w !! ["urls.txt"])).

End Vocabulary.

(** ** Vocabulary of the further properties *)

Section Footprint.
Context `{Environment}.

(** The files of [wb] differ from those of [wa] at most at names directly
    inside the directory [dir]. *)
Definition only_inside (dir : Path) (wa wb : World) : Prop :=
  ∀ q, files wb !! q ≠ files wa !! q →
       ∃ name, q = dir ++ [name] ∧ name ≠ "" ∧ Py.contains "/" name = false.

(** No file of [wa] is missing in [wb]. *)
Definition keeps_files (wa wb : World) : Prop :=
  ∀ q, is_Some (files wa !! q) → is_Some (files wb !! q).

(** The network gives the same answer for a URL whenever it is asked. *)
Definition stationary : Prop :=
  ∀ n m url, network n url = network m url.

(** A list of writes, carried out from left to right. *)
Definition apply_writes (ops : list (Path * string)) (F : gmap Path string)
  : gmap Path string :=
  foldl (λ m op, <[op.1 := op.2]> m) F ops.

(** The content the writes [ops] leave at [q], if one of them is to [q]. *)
Fixpoint last_write (q : Path) (ops : list (Path * string)) : option string :=
  match ops with
  | [] => None
  | op :: ops' =>
      match last_write q ops' with
      | Some c => Some c
      | None => if bool_decide (op.1 = q) then Some op.2 else None
      end
  end.

(** The computation [m] reads nothing of the world but its directories: its
    result, the writes it makes, the requests it counts and the lines and
    calls it adds are the same whatever the files, the request counter, the
    console and the history were. *)
Definition dirs_only {A} (m : M A) : Prop :=
  ∀ d, ∃ res ops d' k o' c', ∀ F n o c,
    m (mkWorld F d n o c)
    = (res, mkWorld (apply_writes ops F) d' (n + k) (o ++ o') (c ++ c')).

End Footprint.

(** ** A test environment

    A small site, served by a table, with the parse trees of its pages and a
    [urlparse] and [urljoin] for URLs of the generic syntax
    [scheme://netloc/path;params?query#fragment]. The theorems do not depend
    on it; it provides the concrete runs they are instantiated at. *)

Module Fixture.

Fixpoint take_until (stop : ascii → bool) (s : string) : string * string :=
  match s with
  | EmptyString => (EmptyString, EmptyString)
  | String c r =>
      if stop c then (EmptyString, s)
      else let '(a, b) := take_until stop r in (String c a, b)
  end.

(** [s.split(c, 1)], with an empty second part when [c] is not in [s]. *)
Definition split_once (c : ascii) (s : string) : string * string :=
  let '(a, b) := take_until (λ x, bool_decide (x = c)) s in
  (a, match b with String _ r => r | EmptyString => EmptyString end).

Definition is_scheme_char (c : ascii) : bool :=
  let n := nat_of_ascii c in
  ((97 <=? n) && (n <=? 122) || (65 <=? n) && (n <=? 90)
   || (48 <=? n) && (n <=? 57) || (n =? 43) || (n =? 45) || (n =? 46))%nat.

Definition split_scheme (u : string) : string * string :=
  let '(a, b) := take_until (λ x, bool_decide (x = ":"%char)) u in
  match b with
  | String _ rest =>
      if Py.truthy a && Py.all_chars is_scheme_char a then (a, rest)
      else (EmptyString, u)
  | EmptyString => (EmptyString, u)
  end.

Definition is_netloc_end (c : ascii) : bool :=
  bool_decide (c = "/"%char) || bool_decide (c = "?"%char)
  || bool_decide (c = "#"%char).

Definition split_netloc (u : string) : string * string :=
  match u with
  | String a (String b r) =>
      if bool_decide (a = "/"%char) && bool_decide (b = "/"%char)
      then take_until is_netloc_end r
      else (EmptyString, u)
  | _ => (EmptyString, u)
  end.

(** The parameters follow the first [;] of the last path segment. *)
Fixpoint split_params (u : string) : string * string :=
  match u with
  | EmptyString => (EmptyString, EmptyString)
  | String c r =>
      if Py.contains "/" r
      then let '(p, q) := split_params r in (String c p, q)
      else if bool_decide (c = "/"%char)
      then let '(p, q) := split_once ";" r in (String c p, q)
      else split_once ";" u
  end.

Definition urlparse (u : string) : Exception + ParseResult :=
  let '(sch, u1) := split_scheme u in
  let '(loc, u2) := split_netloc u1 in
  if xorb (Py.contains "[" loc) (Py.contains "]" loc)
  then inl (ValueError "Invalid IPv6 URL")
  else
    let '(u3, frag) := split_once "#" u2 in
    let '(u4, qry) := split_once "?" u3 in
    let '(pth, prm) := split_params u4 in
    inr (mkParseResult sch loc pth prm qry frag).

(** The directory part of a path: everything up to the last slash. *)
Fixpoint dirpart (p : string) : string :=
  match p with
  | EmptyString => EmptyString
  | String c r =>
      if Py.contains "/" r then String c (dirpart r)
      else if bool_decide (c = "/"%char) then "/" else EmptyString
  end.

(** [urljoin] without the removal of dot segments: an empty reference
    gives the base, a reference with a scheme is kept, a reference from
    the root replaces the path, any other replaces the last segment. *)
Definition urljoin (base url : string) : Exception + string :=
  if negb (Py.truthy url) then inr base
  else
    match urlparse base, urlparse url with
    | inl e, _ | _, inl e => inl e
    | inr b, inr r =>
        if Py.truthy (scheme r) then inr url
        else if Py.startswith_slash url
        then inr (scheme b +:+ "://" +:+ netloc b +:+ url)
        else inr (scheme b +:+ "://" +:+ netloc b +:+ dirpart (path b) +:+ url)
    end.

Definition attrs (l : list (string * string)) : gmap string string :=
  list_to_map l.

(** The page at [https://a.example.com/page]. *)
Definition page_a : list Node :=
  [Tag "html" ∅
     [Tag "head" ∅
        [Tag "title" ∅ [NavigableString "  Foo  "];
         Tag "meta" (attrs [("charset", "utf-8")]) [];
         Tag "meta" (attrs [("property", "og:image");
                            ("content", "/pics/cat.png")]) [];
         Tag "meta" (attrs [("name", "description");
                            ("content", "  Bar  ")]) []];
      Tag "body" ∅ [NavigableString "hello"]]].

(** The page at [https://c.example.com/]: nothing but blanks. *)
Definition page_c : list Node :=
  [Tag "title" ∅ [NavigableString "   "];
   Tag "meta" (attrs [("property", "og:image"); ("content", "")]) [];
   Tag "meta" (attrs [("name", "description"); ("content", "")]) []].

(** The markup of the two pages, as the server sends it. *)
Definition html_a : string :=
  "<html><head><title>  Foo  </title><meta charset='utf-8'>"
    +:+ "<meta property='og:image' content='/pics/cat.png'>"
    +:+ "<meta name='description' content='  Bar  '></head>"
    +:+ "<body>hello</body></html>".

Definition html_c : string :=
  "<title>   </title><meta property='og:image' content=''>"
    +:+ "<meta name='description' content=''>".

Definition ok_response (url : string) (body : list string) : Response :=
  mkResponse 200 "OK" url body None.

Definition site : list (string * (Exception + Response)) :=
  [("https://a.example.com/page",
    inr (ok_response "https://a.example.com/page" [html_a]));
   ("https://a.example.com/pics/cat.png",
    inr (ok_response "https://a.example.com/pics/cat.png" ["PNG"; "DATA"]));
   ("https://b.example.com/",
    inr (mkResponse 404 "Not Found" "https://b.example.com/" ["gone"] None));
   ("https://c.example.com/",
    inr (ok_response "https://c.example.com/" [html_c]));
   ("https://example.com",
    inr (ok_response "https://example.com" ["JPEG"]));
   ("https://d.example.com/big.png",
    inr (mkResponse 200 "OK" "https://d.example.com/big.png" ["HALF"]
           (Some (RequestException "Connection broken"))))].

Fixpoint assoc {A} (k : string) (l : list (string * A)) : option A :=
  match l with
  | [] => None
  | (k', v) :: l' => if bool_decide (k = k') then Some v else assoc k l'
  end.

Definition network (n : nat) (url : string) : Exception + Response :=
  default (inl (RequestException "Connection refused")) (assoc url site).

Definition html_parser (body : string) : list Node :=
  default [] (assoc body [(html_a, page_a); (html_c, page_c)]).

Definition os_denies (p : Path) : option Exception := None.

Definition urls_txt : string :=
  "https://nowhere.invalid/" +:+ Py.nl +:+ Py.nl
    +:+ "  https://a.example.com/page " +:+ Py.nl
    +:+ "https://b.example.com/" +:+ Py.nl.

(** A working directory holding [urls.txt] and nothing else. *)
Definition w0 : World :=
  mkWorld {[ ["urls.txt"] := urls_txt ]} ∅ 0 [] [].

(** The same directory after [dist] was created. *)
Definition w1 : World :=
  mkWorld {[ ["urls.txt"] := urls_txt ]} {[ ["dist"] ]} 0 [] [].

(** An empty working directory. *)
Definition w_empty : World := mkWorld ∅ ∅ 0 [] [].

End Fixture.

(** ** The test environment is an [Environment] *)

Lemma take_until_stops stop c s :
  stop c = true → Py.contains c (Fixture.take_until stop s).1 = false.
Proof.
  intros Hc. induction s as [|a r IH]; simpl; [done|].
  destruct (stop a) eqn:Ha; [done|].
  destruct (Fixture.take_until stop r) as [x y]; simpl in *.
  rewrite IH, orb_false_r. apply bool_decide_eq_false. congruence.
Qed.

Lemma fixture_netloc_no_slash u r :
  Fixture.urlparse u = inr r → Py.contains "/" (netloc r) = false.
Proof.
  unfold Fixture.urlparse.
  destruct (Fixture.split_scheme u) as [sch u1].
  destruct (Fixture.split_netloc u1) as [loc u2] eqn:Hloc.
  destruct (xorb _ _); [done|].
  destruct (Fixture.split_once "#" u2) as [u3 frag].
  destruct (Fixture.split_once "?" u3) as [u4 qry].
  destruct (Fixture.split_params u4) as [pth prm].
  intros [= <-]; simpl.
  unfold Fixture.split_netloc in Hloc.
  destruct u1 as [|a [|b t]]; try (by injection Hloc as <- _).
  destruct (_ && _).
  - change loc with (loc, u2).1. rewrite <- Hloc.
    by apply take_until_stops.
  - by injection Hloc as <- _.
Qed.

#[global] Instance fixture_env : Environment := {|
  network := Fixture.network;
  html_parser := Fixture.html_parser;
  urljoin := Fixture.urljoin;
  urlparse := Fixture.urlparse;
  os_denies := Fixture.os_denies;
  netloc_no_slash := fixture_netloc_no_slash
|}.

(** * Properties *)

(** Unfolding the monad, and closing the cases a hypothesis rules out. *)
Ltac unfold_monad :=
  unfold lift, mbind, M_bind, mret, M_ret, try_except, raise, print, record.

Ltac absurd_case :=
  first [ done
        | intros (? & ? & (? & ? & ?) & ? & ?); congruence
        | intros; congruence ].

(** ** Strings and paths *)

Lemma app_cons c (a b : string) : String c a +:+ b = String c (a +:+ b).
Proof. reflexivity. Qed.

Lemma app_empty_l (b : string) : "" +:+ b = b.
Proof. reflexivity. Qed.

Lemma app_empty_r (a : string) : a +:+ "" = a.
Proof. induction a as [|c a IH]; [done|]. by rewrite app_cons, IH. Qed.

Lemma app_assoc_s (a b c : string) : (a +:+ b) +:+ c = a +:+ (b +:+ c).
Proof. induction a as [|x a IH]; [done|]. by rewrite !app_cons, IH. Qed.

Lemma truthy_true s : Py.truthy s = true ↔ s ≠ "".
Proof.
  unfold Py.truthy. rewrite negb_true_iff, bool_decide_eq_false. done.
Qed.

Lemma truthy_false s : Py.truthy s = false ↔ s = "".
Proof.
  unfold Py.truthy. rewrite negb_false_iff, bool_decide_eq_true. done.
Qed.

Lemma contains_app c (a b : string) :
  Py.contains c (a +:+ b) = Py.contains c a || Py.contains c b.
Proof.
  induction a as [|x a IH]; [done|].
  rewrite app_cons. simpl. by rewrite IH, orb_assoc.
Qed.

Lemma basename_no_slash p : Py.contains "/" (Os.basename p) = false.
Proof.
  induction p as [|c r IH]; [done|]. simpl.
  destruct (Py.contains "/" r) eqn:Hr; [done|].
  case_bool_decide as Hc; [done|]. simpl.
  rewrite Hr, orb_false_r. by apply bool_decide_eq_false.
Qed.

(** The base name of [d/f] is [f] when [f] is a single name. *)
Lemma basename_final_segment d f :
  Py.contains "/" f = false → Os.basename (d +:+ "/" +:+ f) = f.
Proof.
  intros Hf. induction d as [|c d IH].
  - rewrite app_empty_l. change ("/" +:+ f) with (String "/" f). simpl.
    by rewrite Hf.
  - rewrite app_cons. simpl. rewrite IH.
    rewrite contains_app. change ("/" +:+ f) with (String "/" f). simpl.
    by rewrite orb_true_r.
Qed.

Lemma basename_trailing_slash d : Os.basename (d +:+ "/") = "".
Proof. apply (basename_final_segment d ""). done. Qed.

Lemma split_no_sep sep s : Py.contains sep s = false → Py.split sep s = [s].
Proof.
  induction s as [|c r IH]; [done|]. simpl.
  intros [Hc Hr]%orb_false_elim. rewrite Hc, (IH Hr). done.
Qed.

Lemma segments_name f :
  Py.contains "/" f = false → f ≠ "" → f ≠ "." → Pathlib.segments f = [f].
Proof.
  intros Hf H1 H2. unfold Pathlib.segments. rewrite (split_no_sep _ _ Hf).
  by rewrite filter_cons_True, filter_nil.
Qed.

Lemma not_startswith_slash f :
  Py.contains "/" f = false → Py.startswith_slash f = false.
Proof. destruct f as [|c r]; [done|]. simpl. by intros [? _]%orb_false_elim. Qed.

(** Joining a single name to a path appends it. *)
Lemma truediv_name (p : Path) f :
  Py.contains "/" f = false → f ≠ "" → f ≠ "." → p /: f = p ++ [f].
Proof.
  intros Hf H1 H2. unfold Pathlib.truediv.
  by rewrite (not_startswith_slash _ Hf), segments_name.
Qed.

Lemma truediv_dot (p : Path) : p /: "." = p.
Proof. unfold Pathlib.truediv. simpl. by rewrite app_nil_r. Qed.

Lemma parent_snoc (p : Path) f : Pathlib.parent (p ++ [f]) = p.
Proof. unfold Pathlib.parent. apply removelast_last. Qed.

Lemma concat_app_s (l1 l2 : list string) :
  Py.concat (l1 ++ l2) = Py.concat l1 +:+ Py.concat l2.
Proof.
  induction l1 as [|a l1 IH]; [done|]. unfold Py.concat in *. simpl.
  by rewrite IH, app_assoc_s.
Qed.

Lemma split_at_app n s : (Py.split_at n s).1 +:+ (Py.split_at n s).2 = s.
Proof.
  revert s. induction n as [|n IH]; intros [|c r]; simpl; try done.
  specialize (IH r). destruct (Py.split_at n r) as [a b]. simpl in *.
  by rewrite app_cons, IH.
Qed.

Lemma split_at_length n s :
  (0 < n)%nat → s ≠ "" →
  (String.length (Py.split_at n s).2 < String.length s)%nat.
Proof.
  revert s. induction n as [|n IH]; intros [|c r] Hn Hs; simpl; try done; try lia.
  destruct n as [|n'].
  - simpl. destruct r; simpl; lia.
  - destruct r as [|c' r'].
    + simpl. lia.
    + specialize (IH (String c' r') ltac:(lia) ltac:(done)).
      destruct (Py.split_at (S n') (String c' r')) as [a b]. simpl in *. lia.
Qed.

(** Cutting a body into pieces loses nothing. *)
Lemma concat_pieces fuel n s :
  (0 < n)%nat → (String.length s ≤ fuel)%nat → Py.concat (Py.pieces fuel n s) = s.
Proof.
  intros Hn. revert s. induction fuel as [|fuel IH]; intros s Hlen.
  - destruct s; [done|simpl in Hlen; lia].
  - simpl. destruct (Py.truthy s) eqn:Hs.
    + apply truthy_true in Hs.
      pose proof (split_at_app n s) as Happ.
      pose proof (split_at_length n s Hn Hs) as Hlt.
      destruct (Py.split_at n s) as [a b]. simpl in *.
      unfold Py.concat in *. simpl. rewrite IH; [done|lia].
    + by apply truthy_false in Hs.
Qed.


Lemma lstrip_blank s : Py.all_chars Py.isspace s = true → Py.lstrip s = "".
Proof.
  induction s as [|c r IH]; [done|]. simpl.
  intros [Hc Hr]%andb_prop. rewrite Hc. auto.
Qed.

(** A string of white space strips to nothing. *)
Lemma strip_blank s : Py.all_chars Py.isspace s = true → Py.strip s = "".
Proof. intros Hs. unfold Py.strip. by rewrite (lstrip_blank _ Hs). Qed.

(** ** Trimming *)

Lemma rev_app_append (s1 s2 : string) :
  String.rev_app s1 s2 = String.rev s1 +:+ s2.
Proof.
  unfold String.rev. revert s2.
  induction s1 as [|c s1 IH]; intros s2; [done|]. simpl.
  rewrite (IH (String c "")), IH, app_assoc_s. done.
Qed.

Lemma rev_cons c (s : string) : String.rev (String c s) = String.rev s +:+ String c "".
Proof. unfold String.rev at 1. simpl. apply rev_app_append. Qed.

Lemma rev_append (a b : string) :
  String.rev (a +:+ b) = String.rev b +:+ String.rev a.
Proof.
  induction a as [|c a IH].
  - by rewrite app_empty_l, app_empty_r.
  - by rewrite app_cons, !rev_cons, IH, app_assoc_s.
Qed.

Lemma rev_involutive_s (s : string) : String.rev (String.rev s) = s.
Proof.
  induction s as [|c s IH]; [done|].
  by rewrite rev_cons, rev_append, IH.
Qed.

Lemma all_chars_app p (a b : string) :
  Py.all_chars p (a +:+ b) = Py.all_chars p a && Py.all_chars p b.
Proof.
  induction a as [|c a IH]; [done|].
  rewrite app_cons. simpl. by rewrite IH, andb_assoc.
Qed.

Lemma all_chars_rev p (s : string) :
  Py.all_chars p (String.rev s) = Py.all_chars p s.
Proof.
  induction s as [|c s IH]; [done|].
  rewrite rev_cons, all_chars_app, IH. simpl.
  by rewrite andb_true_r, andb_comm.
Qed.

(** [lstrip] removes a prefix of white space and stops at the first other
    character. *)
Lemma lstrip_spec s :
  ∃ l, s = l +:+ Py.lstrip s ∧ Py.all_chars Py.isspace l = true
       ∧ ∀ c r, Py.lstrip s = String c r → Py.isspace c = false.
Proof.
  induction s as [|c s (l & Hs & Hl & Hfirst)].
  - by exists "".
  - simpl. destruct (Py.isspace c) eqn:Hc.
    + exists (String c l). rewrite app_cons, <- Hs. simpl. by rewrite Hc, Hl.
    + exists "". repeat split. by intros c' r [= <- _].
Qed.

(** [strip] removes white space at both ends and nothing else: what is left
    neither starts nor ends with white space. *)
Lemma strip_spec s :
  ∃ l r, s = l +:+ Py.strip s +:+ r
         ∧ Py.all_chars Py.isspace l = true ∧ Py.all_chars Py.isspace r = true
         ∧ (∀ c t, Py.strip s = String c t → Py.isspace c = false)
         ∧ (∀ c t, String.rev (Py.strip s) = String c t → Py.isspace c = false).
Proof.
  destruct (lstrip_spec s) as (l & Hs & Hl & Hfirst).
  destruct (lstrip_spec (String.rev (Py.lstrip s))) as (r' & Hm & Hr & Hlast).
  assert (Hmid : Py.lstrip s = Py.strip s +:+ String.rev r').
  { unfold Py.strip, Py.rstrip. rewrite <- rev_append, <- Hm.
    by rewrite rev_involutive_s. }
  exists l, (String.rev r'). rewrite <- Hmid. split; [done|]. split; [done|].
  split; [by rewrite all_chars_rev|]. split.
  - intros c t Hc. rewrite Hc, app_cons in Hmid. by apply (Hfirst c _ Hmid).
  - intros c t Hc. unfold Py.strip, Py.rstrip in Hc.
    rewrite rev_involutive_s in Hc. by apply (Hlast c t).
Qed.

(** ** Searching the parse tree *)

Lemma find_list_app {A} (f : A → bool) (l1 l2 : list A) :
  List.find f (l1 ++ l2)
  = match List.find f l1 with Some x => Some x | None => List.find f l2 end.
Proof.
  induction l1 as [|a l1 IH]; [done|]. simpl. by destruct (f a).
Qed.

Lemma find_node_first p n :
  Bs4.find_node p n = List.find (Bs4.matches p) (Bs4.descendants_node n).
Proof.
  revert n. fix IH 1. intros [name attrs children|s|s]; [|done..].
  simpl. destruct (p name attrs); [done|].
  induction children as [|c l IHl]; [done|].
  rewrite find_list_app, <- (IH c). by destruct (Bs4.find_node p c).
Qed.

(** [find] returns the first element, in document order, whose name and
    attributes match. *)
Lemma find_first p soup :
  Bs4.find p soup = List.find (Bs4.matches p) (Bs4.descendants soup).
Proof.
  unfold Bs4.descendants. induction soup as [|c l IH]; [done|]. simpl.
  rewrite find_list_app, <- find_node_first, IH.
  by destruct (Bs4.find_node p c).
Qed.

(** ** The primitives *)

Section Runs.
Context `{Environment}.

Lemma status_ok_passes r w :
  status_ok r = true → raise_for_status r w = (inr (), w).
Proof.
  unfold status_ok, raise_for_status. intros Hs%negb_true_iff. by rewrite Hs.
Qed.

Lemma status_bad_raises r w :
  status_ok r = false →
  raise_for_status r w = (inl (HTTPError (http_error_msg r)), w).
Proof.
  unfold status_ok, raise_for_status. intros Hs%negb_false_iff. by rewrite Hs.
Qed.

Lemma open_w_ok w p :
  can_open w p = true →
  open_w p w = (inr p, set_files (<[p := ""]> (files w)) w).
Proof.
  unfold can_open, open_w.
  intros [[Hd%bool_decide_eq_true Hn%negb_true_iff]%andb_prop Hp]%andb_prop.
  by rewrite Hd, Hn, Hp.
Qed.

Lemma open_w_fails w p :
  can_open w p = false → ∃ e, open_w p w = (inl e, w).
Proof.
  unfold can_open, open_w. intros Hc.
  destruct (os_denies p) as [e|]; [by eexists|].
  destruct (is_dir w p || bool_decide (last p = Some "..")); [by eexists|].
  destruct (is_dir w (Pathlib.parent p)); [|by eexists].
  by rewrite bool_decide_eq_true_2 in Hc.
Qed.

(** Writing the chunks one after the other appends their concatenation. *)
Lemma write_chunks f chunks w c :
  files w !! f = Some c →
  ∃ w', for_each chunks (write f) w = (inr (), w')
        ∧ files w' = <[f := c +:+ Py.concat chunks]> (files w)
        ∧ dirs w' = dirs w ∧ calls w' = calls w ∧ stdout w' = stdout w
        ∧ requests_made w' = requests_made w.
Proof.
  revert w c. induction chunks as [|x l IH]; intros w c Hc.
  - exists w. simpl. unfold mret, M_ret. split; [done|].
    unfold Py.concat. simpl. rewrite app_empty_r, insert_id; done.
  - simpl. unfold mbind, M_bind at 1. unfold write at 1.
    destruct (IH (set_files (<[f:=default "" (files w !! f) +:+ x]> (files w)) w)
                (c +:+ x)) as (w' & Hrun & Hf & Hd & Hcs & Ho & Hr).
    { simpl. rewrite Hc. simpl. by rewrite lookup_insert_eq. }
    exists w'. rewrite Hrun. split; [done|]. rewrite Hf. simpl.
    rewrite insert_insert_eq. unfold Py.concat. simpl.
    rewrite app_assoc_s. done.
Qed.

Lemma concat_iter_content r :
  Py.concat (iter_content 8192 r).1 = text r.
Proof.
  unfold iter_content, text. simpl. induction (raw r) as [|s l IH]; [done|].
  simpl. rewrite concat_app_s, IH.
  rewrite concat_pieces; [done|lia|done].
Qed.

Lemma requests_get_stream url w r :
  network (requests_made w) url = inr r →
  requests_get url true w = (inr r, tick w).
Proof. unfold requests_get. intros ->. by destruct (broken r). Qed.

Lemma requests_get_error url stream w e :
  network (requests_made w) url = inl e →
  requests_get url stream w = (inl e, tick w).
Proof. unfold requests_get. by intros ->. Qed.

Lemma requests_get_full url w r :
  network (requests_made w) url = inr r → broken r = None →
  requests_get url false w = (inr r, tick w).
Proof. unfold requests_get. by intros -> ->. Qed.

Lemma requests_get_broken url w r e :
  network (requests_made w) url = inr r → broken r = Some e →
  requests_get url false w = (inl e, tick w).
Proof. unfold requests_get. by intros -> ->. Qed.

Lemma image_name_single parsed :
  Py.contains "/" (image_name parsed) = false ∧ image_name parsed ≠ "".
Proof.
  unfold image_name. destruct (Py.truthy _) eqn:Ht.
  - split; [apply basename_no_slash|by apply truthy_true].
  - done.
Qed.

Lemma image_path save_path parsed w :
  is_dir w save_path = true →
  can_open w (save_path /: image_name parsed) = true →
  save_path /: image_name parsed = save_path ++ [image_name parsed].
Proof.
  intros Hdir Hopen. destruct (image_name_single parsed) as [Hs Hne].
  destruct (decide (image_name parsed = ".")) as [Hdot|Hdot].
  - rewrite Hdot, truediv_dot in Hopen. unfold can_open in Hopen.
    rewrite Hdir in Hopen. simpl in Hopen. by rewrite andb_false_r in Hopen.
  - by apply truediv_name.
Qed.

Lemma download_image_success image_url save_path w r parsed :
  network (requests_made w) image_url = inr r →
  status_ok r = true → broken r = None →
  urlparse image_url = inr parsed →
  can_open w (save_path /: image_name parsed) = true →
  ∃ w', download_image image_url save_path w = (inr true, w')
        ∧ files w' = <[save_path /: image_name parsed := text r]> (files w)
        ∧ dirs w' = dirs w ∧ stdout w' = stdout w.
Proof.
  intros Hnet Hst Hbr Hparse Hopen.
  unfold download_image. unfold_monad.
  rewrite (requests_get_stream _ _ r) by done.
  rewrite status_ok_passes by done. rewrite Hparse.
  fold (image_name parsed).
  rewrite open_w_ok by done.
  unfold for_iter. unfold_monad.
  edestruct (write_chunks (save_path /: image_name parsed) (iter_content 8192 r).1)
    as (w' & Hrun & Hf & Hd & Hcs & Ho & Hr); [|rewrite Hrun].
  { simpl. apply lookup_insert_eq. }
  change (iter_content 8192 r).2 with (broken r). rewrite Hbr.
  exists w'. split; [done|]. rewrite Hf, Hd, Ho, concat_iter_content.
  cbn [files set_files tick add_call dirs stdout].
  by rewrite insert_insert_eq, app_empty_l.
Qed.

(** What [download_image] does, case by case. It always returns. *)
Lemma download_image_cases image_url save_path w :
  ∃ b w', download_image image_url save_path w = (inr b, w')
    ∧ calls w' = calls w ++ [Download image_url save_path]
    ∧ dirs w' = dirs w
    ∧ (b = true ↔ download_succeeds w image_url save_path)
    ∧ (∀ r, network (requests_made w) image_url = inr r →
            status_ok r = false → files w' = files w)
    ∧ (∀ e, network (requests_made w) image_url = inl e → files w' = files w).
Proof.
  unfold download_image, download_succeeds, fetched. unfold_monad.
  destruct (network (requests_made w) image_url) as [e|r] eqn:Hnet.
  { rewrite (requests_get_error _ _ _ e) by done.
    eexists _, _. split; [done|]. repeat split; absurd_case. }
  rewrite (requests_get_stream _ _ r) by done.
  destruct (status_ok r) eqn:Hst.
  2:{ rewrite status_bad_raises by done.
      eexists _, _. split; [done|]. repeat split; absurd_case. }
  rewrite status_ok_passes by done.
  destruct (urlparse image_url) as [e|parsed] eqn:Hparse.
  { eexists _, _. split; [done|]. repeat split; absurd_case. }
  fold (image_name parsed).
  destruct (can_open w (save_path /: image_name parsed)) eqn:Hopen.
  2:{ destruct (open_w_fails (tick (add_call (Download image_url save_path) w))
                  (save_path /: image_name parsed)) as [e He]; [done|].
      rewrite He. eexists _, _. split; [done|]. repeat split; absurd_case. }
  rewrite open_w_ok by done.
  unfold for_iter. unfold_monad.
  edestruct (write_chunks (save_path /: image_name parsed) (iter_content 8192 r).1)
    as (w' & Hrun & Hf & Hd & Hcs & Ho & Hr); [|rewrite Hrun].
  { cbn [files set_files]. apply lookup_insert_eq. }
  change (iter_content 8192 r).2 with (broken r).
  destruct (broken r) as [e|] eqn:Hbr.
  - eexists _, _. split; [done|]. cbn [calls dirs add_stdout].
    rewrite Hcs, Hd. repeat split; absurd_case.
  - exists true, w'. split; [done|]. rewrite Hcs, Hd.
    repeat split; try absurd_case. intros _. by exists r, parsed.
Qed.

End Runs.

Section SaveMetadata.
Context `{Environment}.

Lemma length_app_s (a b : string) :
  String.length (a +:+ b) = (String.length a + String.length b)%nat.
Proof. induction a as [|c a IH]; [done|]. rewrite app_cons. simpl. lia. Qed.

Lemma metadata_name_single parsed u :
  urlparse u = inr parsed →
  Py.contains "/" (netloc parsed +:+ ".txt") = false
  ∧ netloc parsed +:+ ".txt" ≠ "" ∧ netloc parsed +:+ ".txt" ≠ ".".
Proof.
  intros Hp. split; [|split].
  - rewrite contains_app, (netloc_no_slash _ _ Hp). done.
  - intros Heq%(f_equal String.length). rewrite length_app_s in Heq.
    simpl in Heq. lia.
  - intros Heq%(f_equal String.length). rewrite length_app_s in Heq.
    simpl in Heq. lia.
Qed.

(** The metadata file lies in the destination directory. *)
Lemma metadata_path save_path parsed u :
  urlparse u = inr parsed →
  save_path /: (netloc parsed +:+ ".txt")
  = save_path ++ [netloc parsed +:+ ".txt"].
Proof.
  intros Hp. destruct (metadata_name_single _ _ Hp) as (? & ? & ?).
  by apply truediv_name.
Qed.

Lemma save_metadata_success url title description save_path w parsed :
  urlparse url = inr parsed →
  can_open w (save_path /: (netloc parsed +:+ ".txt")) = true →
  ∃ w', save_metadata url title description save_path w = (inr true, w')
    ∧ files w'
      = <[save_path /: (netloc parsed +:+ ".txt") :=
            metadata_document url (Py.or_else title "Not found")
              (Py.or_else description "Not found")]> (files w)
    ∧ dirs w' = dirs w ∧ stdout w' = stdout w
    ∧ calls w' = calls w ++ [Save url title description save_path].
Proof.
  intros Hparse Hopen. unfold save_metadata. unfold_monad.
  rewrite Hparse. rewrite open_w_ok by done.
  unfold write. cbn [files set_files add_call dirs stdout calls requests_made].
  eexists. split; [done|]. cbn [files set_files add_call dirs stdout calls].
  split; [|done].
  rewrite !lookup_insert_eq. cbn [default]. rewrite !insert_insert_eq.
  f_equal. unfold metadata_document, id.
  by rewrite app_empty_l, !app_assoc_s.
Qed.

Lemma save_metadata_cases url title description save_path w :
  ∃ b w', save_metadata url title description save_path w = (inr b, w')
    ∧ calls w' = calls w ++ [Save url title description save_path]
    ∧ dirs w' = dirs w ∧ requests_made w' = requests_made w.
Proof.
  destruct (urlparse url) as [e|parsed] eqn:Hparse.
  { unfold save_metadata. unfold_monad. rewrite Hparse.
    by eexists _, _. }
  destruct (can_open w (save_path /: (netloc parsed +:+ ".txt"))) eqn:Hopen.
  - unfold save_metadata. unfold_monad.
    rewrite Hparse. rewrite open_w_ok by done. unfold write.
    by eexists _, _.
  - unfold save_metadata. unfold_monad. rewrite Hparse.
    destruct (open_w_fails (add_call (Save url title description save_path) w)
                (save_path /: (netloc parsed +:+ ".txt"))) as [e He]; [done|].
    rewrite He. by eexists _, _.
Qed.

End SaveMetadata.

Section GetPageMetadata.
Context `{Environment}.

(** A page that was fetched: the result is read off the parse tree, unless
    resolving the og:image raises. *)
Lemma get_page_metadata_fetched url w r :
  fetched w url r →
  let soup := html_parser (text r) in
  get_page_metadata url w =
    match og_content_of soup with
    | None =>
        let res := (None, title_of soup, description_of soup) in
        (inr res, add_call (Extracted url res) (tick w))
    | Some x =>
        match urljoin url x with
        | inr j =>
            let res := (Some j, title_of soup, description_of soup) in
            (inr res, add_call (Extracted url res) (tick w))
        | inl e =>
            (inr (None, None, None),
             add_call (Extracted url (None, None, None))
               (add_stdout ("Failed to process URL " +:+ url +:+ ": "
                              +:+ exc_str e) (tick w)))
        end
    end.
Proof.
  intros (Hnet & Hst & Hbr) soup.
  unfold get_page_metadata. unfold_monad.
  rewrite (requests_get_full _ _ r) by done.
  rewrite status_ok_passes by done.
  fold soup. unfold og_content_of, title_of, description_of.
  unfold og_image_element, title_element, description_element.
  destruct (Bs4.find (Bs4.by_attr "meta" "property" "og:image") soup)
    as [t|]; cbn [option_bind mbind option_bind].
  2:{ destruct (Bs4.find (Bs4.by_name "title") soup) as [tt|];
      destruct (Bs4.find (Bs4.by_attr "meta" "name" "description") soup)
        as [td|]; try done;
      cbn; destruct (Bs4.get td "content") as [c|]; try done;
      cbn; by destruct (Py.truthy c). }
  unfold mbind, option_bind.
  destruct (Bs4.get t "content") as [x|].
  2:{ destruct (Bs4.find (Bs4.by_name "title") soup) as [tt|];
      destruct (Bs4.find (Bs4.by_attr "meta" "name" "description") soup)
        as [td|]; try done;
      destruct (Bs4.get td "content") as [c|]; try done;
      by destruct (Py.truthy c). }
  destruct (Py.truthy x).
  2:{ destruct (Bs4.find (Bs4.by_name "title") soup) as [tt|];
      destruct (Bs4.find (Bs4.by_attr "meta" "name" "description") soup)
        as [td|]; try done;
      destruct (Bs4.get td "content") as [c|]; try done;
      by destruct (Py.truthy c). }
  destruct (urljoin url x) as [e|j]; [done|].
  destruct (Bs4.find (Bs4.by_name "title") soup) as [tt|];
    destruct (Bs4.find (Bs4.by_attr "meta" "name" "description") soup)
      as [td|]; try done;
    destruct (Bs4.get td "content") as [c|]; try done;
    by destruct (Py.truthy c).
Qed.

(** A page that could not be fetched: everything is absent. *)
Lemma get_page_metadata_unfetched url w :
  (∀ r, ¬ fetched w url r) →
  ∃ w', get_page_metadata url w = (inr (None, None, None), w')
    ∧ calls w' = calls w ++ [Extracted url (None, None, None)]
    ∧ files w' = files w ∧ dirs w' = dirs w.
Proof.
  intros Hno. unfold get_page_metadata. unfold_monad.
  destruct (network (requests_made w) url) as [e|r] eqn:Hnet.
  { rewrite (requests_get_error _ _ _ e) by done. by eexists. }
  destruct (broken r) as [e|] eqn:Hbr.
  { rewrite (requests_get_broken _ _ r e) by done. by eexists. }
  rewrite (requests_get_full _ _ r) by done.
  destruct (status_ok r) eqn:Hst.
  { destruct (Hno r). by repeat split. }
  rewrite status_bad_raises by done. by eexists.
Qed.

(** [get_page_metadata] always returns, records its result and leaves the
    file system alone. *)
Lemma get_page_metadata_cases url w :
  ∃ res w', get_page_metadata url w = (inr res, w')
    ∧ calls w' = calls w ++ [Extracted url res]
    ∧ files w' = files w ∧ dirs w' = dirs w.
Proof.
  destruct (network (requests_made w) url) as [e|r] eqn:Hnet.
  { destruct (get_page_metadata_unfetched url w) as (w' & ? & ?).
    - intros r (? & _). congruence.
    - by eexists _, _. }
  destruct (decide (status_ok r = true ∧ broken r = None)) as [[Hs Hb]|Hno].
  - rewrite (get_page_metadata_fetched url w r) by done.
    destruct (og_content_of _); [destruct (urljoin _ _)|];
      by eexists _, _.
  - destruct (get_page_metadata_unfetched url w) as (w' & ? & ?).
    + intros r' (? & ? & ?). apply Hno.
      assert (r' = r) as -> by congruence. done.
    + by eexists _, _.
Qed.

End GetPageMetadata.

Section Driver.
Context `{Environment}.

Lemma extracted_urls_app l1 l2 :
  extracted_urls (l1 ++ l2) = extracted_urls l1 ++ extracted_urls l2.
Proof. unfold extracted_urls. apply flat_map_app. Qed.

Lemma saved_urls_app l1 l2 :
  saved_urls (l1 ++ l2) = saved_urls l1 ++ saved_urls l2.
Proof. unfold saved_urls. apply flat_map_app. Qed.

Lemma extracted_urls_calls_for dist url res :
  extracted_urls (calls_for dist url res) = [url].
Proof.
  destruct res as [[og t] d]. unfold calls_for.
  by destruct (Py.truthy_opt og).
Qed.

Lemma saved_urls_calls_for dist url res :
  saved_urls (calls_for dist url res) = [url].
Proof.
  destruct res as [[og t] d]. unfold calls_for.
  by destruct (Py.truthy_opt og).
Qed.

(** One turn of the loop: the extractor, the fetcher if an image URL was
    found, the writer; it never raises. *)
Lemma process_url_run dist url w :
  ∃ res w', process_url dist url w = (inr (), w')
    ∧ (get_page_metadata url (add_stdout ("Processing " +:+ url) w)).1
      = inr res
    ∧ calls w' = calls w ++ calls_for dist url res
    ∧ dirs w' = dirs w.
Proof.
  unfold process_url. unfold_monad.
  destruct (get_page_metadata_cases url (add_stdout ("Processing " +:+ url) w))
    as ([[og t] d] & w1 & -> & Hc1 & Hf1 & Hd1).
  exists (og, t, d). unfold calls_for.
  destruct (Py.truthy_opt og) eqn:Hog.
  - destruct (download_image_cases (default "" og) dist
                (add_stdout ("Found og:image: " +:+ default "" og) w1))
      as (b & w2 & -> & Hc2 & Hd2 & _).
    destruct b.
    + destruct (save_metadata_cases url t d dist
                  (add_stdout ("Successfully downloaded image from " +:+ url) w2))
        as (b' & w4 & -> & Hc4 & Hd4 & _).
      exists (if b' then add_stdout ("Successfully saved metadata for " +:+ url) w4
              else w4).
      split; [by destruct b'|]. split; [done|].
      split; [trans (calls w4)|trans (dirs w4)]; try (by destruct b').
      * rewrite Hc4. cbn [calls add_stdout]. rewrite Hc2.
        cbn [calls add_stdout]. rewrite Hc1.
        cbn [calls add_stdout]. by rewrite <- !app_assoc.
      * rewrite Hd4. cbn [dirs add_stdout]. rewrite Hd2.
        cbn [dirs add_stdout]. by rewrite Hd1.
    + destruct (save_metadata_cases url t d dist w2)
        as (b' & w4 & -> & Hc4 & Hd4 & _).
      exists (if b' then add_stdout ("Successfully saved metadata for " +:+ url) w4
              else w4).
      split; [by destruct b'|]. split; [done|].
      split; [trans (calls w4)|trans (dirs w4)]; try (by destruct b').
      * rewrite Hc4, Hc2. cbn [calls add_stdout]. rewrite Hc1.
        cbn [calls add_stdout]. by rewrite <- !app_assoc.
      * rewrite Hd4, Hd2. cbn [dirs add_stdout]. by rewrite Hd1.
  - destruct (save_metadata_cases url t d dist
                (add_stdout ("No og:image found for " +:+ url) w1))
      as (b' & w4 & -> & Hc4 & Hd4 & _).
    exists (if b' then add_stdout ("Successfully saved metadata for " +:+ url) w4
              else w4).
      split; [by destruct b'|]. split; [done|].
    split; [trans (calls w4)|trans (dirs w4)]; try (by destruct b').
    + rewrite Hc4. cbn [calls add_stdout]. rewrite Hc1.
      cbn [calls add_stdout]. by rewrite <- !app_assoc.
    + rewrite Hd4. cbn [dirs add_stdout]. by rewrite Hd1.
Qed.

(** The loop handles every URL, in order, whatever happens to each. *)
Lemma loop_run dist urls w :
  ∃ results w', for_each urls (process_url dist) w = (inr (), w')
    ∧ length results = length urls
    ∧ calls w' = calls w ++ concat (zip_with (calls_for dist) urls results)
    ∧ dirs w' = dirs w.
Proof.
  revert w. induction urls as [|url urls IH]; intros w.
  - exists [], w. simpl. by rewrite app_nil_r.
  - destruct (process_url_run dist url w) as (res & w1 & Hrun & _ & Hc1 & Hd1).
    destruct (IH w1) as (results & w2 & Hloop & Hlen & Hc2 & Hd2).
    exists (res :: results), w2. simpl. unfold mbind, M_bind.
    rewrite Hrun, Hloop. split; [done|]. split; [by rewrite Hlen|].
    split; [|congruence]. rewrite Hc2, Hc1. by rewrite <- app_assoc.
Qed.

Lemma read_urls_spec f : read_urls f = url_list_spec (Py.readlines f).
Proof.
  unfold read_urls, url_list_spec.
  induction (Py.readlines f) as [|line lines IH]; [done|].
  rewrite fmap_cons. simpl. rewrite IH.
  destruct (Py.truthy (Py.strip line)) eqn:Ht.
  - apply truthy_true in Ht. by rewrite filter_cons_True.
  - apply truthy_false in Ht. by rewrite filter_cons_False by auto.
Qed.

End Driver.

Section Main.
Context `{Environment}.

Lemma dist_path_parts : Pathlib.of_string "dist" = ["dist"].
Proof. reflexivity. Qed.

Lemma urls_txt_parts : Pathlib.of_string "urls.txt" = ["urls.txt"].
Proof. reflexivity. Qed.

Lemma can_open_dirs w1 w2 p :
  dirs w1 = dirs w2 → can_open w1 p = can_open w2 p.
Proof. unfold can_open, is_dir. by intros ->. Qed.

(** [mkdir] either raises and changes nothing, or leaves [dist] a
    directory and the files as they were. *)
Lemma mkdir_dist w :
  if dist_ok w
  then ∃ w', mkdir_exist_ok ["dist"] w = (inr (), w')
             ∧ files w' = files w ∧ calls w' = calls w
             ∧ stdout w' = stdout w
             ∧ requests_made w' = requests_made w
             ∧ (dirs w' = dirs w ∨ dirs w' = {[ ["dist"] ]} ∪ dirs w)
             ∧ is_dir w' ["dist"] = true
  else ∃ e, mkdir_exist_ok ["dist"] w = (inl e, w).
Proof.
  unfold dist_ok, mkdir_exist_ok.
  destruct (is_dir w ["dist"]) eqn:Hd; simpl.
  { exists w. repeat split; auto. }
  destruct (os_denies ["dist"]) as [e|]; simpl; [by eexists|].
  rewrite ?bool_decide_eq_true_2 by done. simpl.
  destruct (bool_decide (is_Some (files w !! ["dist"]))); simpl; [by eexists|].
  eexists. split; [done|]. repeat split; auto.
  unfold is_dir. cbn [dirs set_dirs]. apply bool_decide_eq_true.
  right; right. set_solver.
Qed.

Lemma open_urls w :
  if input_ok w
  then ∃ f, files w !! ["urls.txt"] = Some f
            ∧ open_r ["urls.txt"] w = (inr f, w)
  else ∃ e, open_r ["urls.txt"] w = (inl e, w).
Proof.
  unfold input_ok, open_r.
  destruct (os_denies ["urls.txt"]) as [e|]; simpl; [by eexists|].
  rewrite ?bool_decide_eq_true_2 by done. simpl.
  destruct (files w !! ["urls.txt"]) as [f|] eqn:Hf.
  - rewrite bool_decide_eq_true_2 by eauto. by exists f.
  - rewrite bool_decide_eq_false_2 by (by intros [? ?]). by eexists.
Qed.

(** A run that cannot start: exit code 1, and nothing but [dist] made. *)
Lemma main_start_fails w :
  dist_ok w && input_ok w = false →
  ∃ w', main w = (inr 1, w')
    ∧ files w' = files w ∧ calls w' = calls w
    ∧ requests_made w' = requests_made w
    ∧ (dirs w' = dirs w ∨ dirs w' = {[ ["dist"] ]} ∪ dirs w).
Proof.
  intros Hstart. unfold main. unfold_monad.
  rewrite dist_path_parts, urls_txt_parts.
  pose proof (mkdir_dist (add_stdout "Application starting..." w)) as Hmk.
  change (dist_ok (add_stdout "Application starting..." w))
    with (dist_ok w) in Hmk.
  destruct (dist_ok w); simpl in Hstart.
  - destruct Hmk as (w1 & -> & Hf1 & Hc1 & Ho1 & Hr1 & Hd1 & _).
    pose proof (open_urls w1) as Hop.
    assert (Hin : input_ok w1 = input_ok w)
      by (unfold input_ok; by rewrite Hf1).
    rewrite Hin, Hstart in Hop. destruct Hop as [e ->].
    eexists. split; [done|]. cbn [files calls dirs requests_made add_stdout].
    rewrite Hf1, Hc1, Hr1. repeat split; try done.
  - destruct Hmk as [e ->]. eexists. split; [done|]. repeat split; auto.
Qed.

(** A run that starts: exit code 0, every URL of the file handled. *)
Lemma main_completes w :
  dist_ok w && input_ok w = true →
  ∃ f results w',
    files w !! ["urls.txt"] = Some f
    ∧ main w = (inr 0, w')
    ∧ length results = length (read_urls f)
    ∧ calls w'
      = calls w ++ concat (zip_with (calls_for ["dist"]) (read_urls f) results).
Proof.
  intros [Hdist Hin]%andb_prop. unfold main. unfold_monad.
  rewrite dist_path_parts, urls_txt_parts.
  pose proof (mkdir_dist (add_stdout "Application starting..." w)) as Hmk.
  change (dist_ok (add_stdout "Application starting..." w))
    with (dist_ok w) in Hmk.
  rewrite Hdist in Hmk. destruct Hmk as (w1 & -> & Hf1 & Hc1 & Ho1 & Hr1 & Hd1 & _).
  pose proof (open_urls w1) as Hop.
  assert (Hin1 : input_ok w1 = input_ok w)
    by (unfold input_ok; by rewrite Hf1).
  rewrite Hin1, Hin in Hop. destruct Hop as (f & Hf & ->).
  destruct (loop_run ["dist"] (read_urls f) w1)
    as (results & w2 & -> & Hlen & Hc2 & _).
  exists f, results, w2. split; [by rewrite Hf1 in Hf|]. split; [done|].
  split; [done|]. by rewrite Hc2, Hc1.
Qed.

End Main.

(** * The claims *)

Section Claims.
Context `{Environment}.

(** C5. When the image is fetched and its file can be opened,
    [download_image] returns true and writes the whole response body to the
    file named [image_name] inside the destination directory. That name is
    the final segment of the path of the URL ([f] for a path [d/f]), and
    ['image.jpg'] when the path is empty or ends with a slash. *)
Theorem download_image_names_file image_url save_path w r parsed :
  fetched w image_url r →
  urlparse image_url = inr parsed →
  is_dir w save_path = true →
  can_open w (save_path /: image_name parsed) = true →
  ∃ w', download_image image_url save_path w = (inr true, w')
    ∧ files w' = <[save_path ++ [image_name parsed] := text r]> (files w)
    ∧ (∀ d f, path parsed = d +:+ "/" +:+ f → f ≠ "" →
              Py.contains "/" f = false → image_name parsed = f)
    ∧ (path parsed = "" ∨ (∃ d, path parsed = d +:+ "/") →
       image_name parsed = "image.jpg").
Proof.
  intros (Hnet & Hst & Hbr) Hparse Hdir Hopen.
  destruct (download_image_success image_url save_path w r parsed)
    as (w' & Hrun & Hf & _); try done.
  exists w'. split; [done|]. split.
  { by rewrite <- (image_path save_path parsed w). }
  split.
  - intros d f Hpath Hne Hf'. unfold image_name.
    rewrite Hpath, basename_final_segment by done.
    by apply truthy_true in Hne as ->.
  - intros Hpath. unfold image_name.
    assert (Os.basename (path parsed) = "") as ->; [|done].
    destruct Hpath as [->|[d ->]]; [done|apply basename_trailing_slash].
Qed.

(** C9. When the server answers [download_image]'s request with an error
    status, the function returns false and the file system is left as it
    was: no file is created, emptied or written. *)
Theorem bad_status_writes_nothing image_url save_path w r :
  network (requests_made w) image_url = inr r →
  status_ok r = false →
  ∃ w', download_image image_url save_path w = (inr false, w')
    ∧ files w' = files w ∧ dirs w' = dirs w.
Proof.
  intros Hnet Hst.
  destruct (download_image_cases image_url save_path w)
    as (b & w' & Hrun & _ & Hd & Hb & Hbad & _).
  exists w'. destruct b.
  - destruct Hb as [Hb _]. destruct (Hb eq_refl) as (r' & p & (? & ? & _) & _).
    congruence.
  - split; [done|]. split; [by apply (Hbad r)|done].
Qed.

(** C8. [download_image] always returns: true exactly when the download
    succeeds, false on a network error, on an error status and when the
    file cannot be opened. [save_metadata] always returns as well, and the
    loop handles every URL of the batch whatever the fetcher and the writer
    return: each URL is extracted and saved once, in order. *)
Theorem failures_never_abort :
  (∀ image_url save_path w,
     ∃ b w', download_image image_url save_path w = (inr b, w')
       ∧ (b = true ↔ download_succeeds w image_url save_path)
       ∧ (∀ e, network (requests_made w) image_url = inl e → b = false)
       ∧ (∀ r, network (requests_made w) image_url = inr r →
               status_ok r = false → b = false)
       ∧ (∀ parsed, urlparse image_url = inr parsed →
               can_open w (save_path /: image_name parsed) = false →
               b = false))
  ∧ (∀ url title description save_path w,
       ∃ b w', save_metadata url title description save_path w = (inr b, w'))
  ∧ (∀ dist urls w,
       ∃ w', for_each urls (process_url dist) w = (inr (), w')
         ∧ extracted_urls (calls w') = extracted_urls (calls w) ++ urls
         ∧ saved_urls (calls w') = saved_urls (calls w) ++ urls).
Proof.
  split; [|split].
  - intros image_url save_path w.
    destruct (download_image_cases image_url save_path w)
      as (b & w' & Hrun & _ & _ & Hb & _).
    exists b, w'. split; [done|]. split; [done|].
    repeat split; intros; destruct b; try done;
      destruct Hb as [Hb _];
      destruct (Hb eq_refl) as (r' & p & (? & ? & ?) & ? & ?); congruence.
  - intros url title description save_path w.
    destruct (save_metadata_cases url title description save_path w)
      as (b & w' & Hrun & _).
    by exists b, w'.
  - intros dist urls w.
    destruct (loop_run dist urls w) as (results & w' & Hrun & Hlen & Hc & _).
    exists w'. split; [done|]. rewrite Hc.
    rewrite extracted_urls_app, saved_urls_app.
    clear Hrun Hc. revert results Hlen.
    induction urls as [|u urls IH]; intros [|res results] Hlen;
      simplify_eq/=; [done|].
    destruct (IH results Hlen) as [IH1 IH2].
    apply app_inv_head in IH1, IH2.
    rewrite extracted_urls_app, saved_urls_app.
    rewrite extracted_urls_calls_for, saved_urls_calls_for, IH1, IH2.
    done.
Qed.

(** C2, amended. When the URL parses and the file can be opened,
    [save_metadata] returns true and writes, in the destination directory,
    the file [<host>.txt], replacing whatever it held; its content is the
    three blocks URL, Title, Description in order. [Not found] stands for a
    title or description that is absent or empty; a non-empty one is written
    verbatim. *)
Theorem save_metadata_writes_host_file url title description save_path w parsed :
  urlparse url = inr parsed →
  can_open w (save_path /: (netloc parsed +:+ ".txt")) = true →
  ∃ w', save_metadata url title description save_path w = (inr true, w')
    ∧ files w'
      = <[save_path ++ [netloc parsed +:+ ".txt"] :=
            metadata_document url (Py.or_else title "Not found")
              (Py.or_else description "Not found")]> (files w)
    ∧ Py.or_else None "Not found" = "Not found"
    ∧ Py.or_else (Some "") "Not found" = "Not found"
    ∧ (∀ s, s ≠ "" → Py.or_else (Some s) "Not found" = s).
Proof.
  intros Hparse Hopen.
  destruct (save_metadata_success url title description save_path w parsed)
    as (w' & Hrun & Hf & _); try done.
  exists w'. split; [done|]. split.
  { by rewrite <- (metadata_path save_path parsed url). }
  split; [done|]. split; [done|].
  intros s Hs%truthy_true. simpl. by rewrite Hs.
Qed.

(** C10. An empty title or description passed to [save_metadata] is written
    as [Not found], so the file is the one written for an absent value. A
    title element holding only white space makes [get_page_metadata] return
    such an empty title. *)
Theorem empty_value_reads_not_found url other save_path w parsed :
  urlparse url = inr parsed →
  can_open w (save_path /: (netloc parsed +:+ ".txt")) = true →
  let written title description :=
    files (save_metadata url title description save_path w).2
      !! (save_path ++ [netloc parsed +:+ ".txt"]) in
  written (Some "") other
  = Some (metadata_document url "Not found" (Py.or_else other "Not found"))
  ∧ written other (Some "")
    = Some (metadata_document url (Py.or_else other "Not found") "Not found")
  ∧ written (Some "") other = written None other
  ∧ written other (Some "") = written other None
  ∧ (∀ page w0 r t,
       fetched w0 page r →
       og_image_resolves page (html_parser (text r)) →
       title_element (html_parser (text r)) = Some t →
       Py.all_chars Py.isspace (Bs4.get_text t) = true →
       ∃ og d w', get_page_metadata page w0 = (inr (og, Some "", d), w')).
Proof.
  intros Hparse Hopen written.
  assert (Hw : ∀ t d, written t d
                      = Some (metadata_document url (Py.or_else t "Not found")
                                (Py.or_else d "Not found"))).
  { intros t d. unfold written.
    destruct (save_metadata_success url t d save_path w parsed)
      as (w' & -> & Hf & _); try done.
    cbn [snd]. rewrite Hf, (metadata_path save_path parsed url) by done.
    apply lookup_insert_eq. }
  rewrite !Hw. repeat split.
  intros page w0 r t Hfetch Hres Ht Hblank.
  rewrite (get_page_metadata_fetched page w0 r) by done. cbv zeta.
  unfold title_of. rewrite Ht. cbn [mbind option_bind].
  rewrite (strip_blank _ Hblank).
  destruct (og_content_of (html_parser (text r))) as [x|] eqn:Hx;
    [|by eexists _, _, _].
  unfold og_content_of in Hx.
  destruct (og_image_element (html_parser (text r))) as [t'|] eqn:Ht';
    [|done]. cbn [mbind option_bind] in Hx.
  destruct (Bs4.get t' "content") as [x'|] eqn:Hx'; [|done].
  cbn [mbind option_bind] in Hx.
  destruct (Py.truthy x') eqn:Htr; [|done]. injection Hx as <-.
  destruct (Hres t' x') as [j ->]; try done; [by apply truthy_true|].
  by eexists _, _, _.
Qed.

(** C4. When the extraction of a URL fails (network error, error status,
    broken body, or a raising resolution), [get_page_metadata] returns the
    three values absent, and the loop body goes on to call [save_metadata]
    with an absent title and description and calls nothing else; where the
    metadata file can be written, it records [Not found] for both. *)
Theorem failed_extraction_is_recorded dist url w :
  extraction_fails w url →
  (∃ w1, get_page_metadata url w = (inr (None, None, None), w1))
  ∧ ∃ w', process_url dist url w = (inr (), w')
      ∧ calls w'
        = calls w ++ [Extracted url (None, None, None); Save url None None dist]
      ∧ (∀ parsed,
           urlparse url = inr parsed →
           can_open w (dist /: (netloc parsed +:+ ".txt")) = true →
           files w'
           = <[dist ++ [netloc parsed +:+ ".txt"] :=
                 metadata_document url "Not found" "Not found"]> (files w)).
Proof.
  intros Hfail.
  assert (Hall : ∀ w0, requests_made w0 = requests_made w →
            ∃ w1, get_page_metadata url w0 = (inr (None, None, None), w1)
              ∧ calls w1 = calls w0 ++ [Extracted url (None, None, None)]
              ∧ files w1 = files w0 ∧ dirs w1 = dirs w0).
  { intros w0 Hreq. destruct Hfail as [Hno|(r & x & e & Hfetch & Hx & He)].
    - apply get_page_metadata_unfetched. intros r Hr. apply (Hno r).
      unfold fetched in *. by rewrite <- Hreq.
    - assert (Hf0 : fetched w0 url r) by (unfold fetched in *; by rewrite Hreq).
      rewrite (get_page_metadata_fetched url w0 r Hf0). cbv zeta.
      rewrite Hx, He. by eexists. }
  split.
  { destruct (Hall w eq_refl) as (w1 & ? & _). by exists w1. }
  unfold process_url. unfold_monad.
  destruct (Hall (add_stdout ("Processing " +:+ url) w) eq_refl)
    as (w1 & -> & Hc1 & Hf1 & Hd1).
  cbn [Py.truthy_opt].
  set (w2 := add_stdout ("No og:image found for " +:+ url) w1).
  destruct (urlparse url) as [e|parsed] eqn:Hparse.
  - destruct (save_metadata_cases url None None dist w2)
      as (b & w3 & Hrun & Hc3 & _).
    rewrite Hrun.
    exists (if b then add_stdout ("Successfully saved metadata for " +:+ url) w3
            else w3).
    split; [by destruct b|]. split; [|done].
    trans (calls w3); [by destruct b|]. rewrite Hc3. subst w2.
    cbn [calls add_stdout]. rewrite Hc1. cbn [calls add_stdout].
    by rewrite <- app_assoc.
  - destruct (can_open w (dist /: (netloc parsed +:+ ".txt"))) eqn:Hopen.
    + destruct (save_metadata_success url None None dist w2 parsed)
        as (w3 & -> & Hf3 & _ & _ & Hc3); [done| |].
      { rewrite (can_open_dirs w2 w); [done|]. subst w2.
        cbn [dirs add_stdout]. by rewrite Hd1. }
      eexists. split; [done|]. cbn [calls files add_stdout].
      rewrite Hc3, Hf3. subst w2. cbn [calls files add_stdout].
      rewrite Hc1, Hf1. cbn [calls files add_stdout]. split.
      * by rewrite <- app_assoc.
      * intros p [= <-] _. by rewrite (metadata_path dist parsed url).
    + destruct (save_metadata_cases url None None dist w2)
        as (b & w3 & Hrun & Hc3 & _).
      rewrite Hrun.
      exists (if b then add_stdout ("Successfully saved metadata for " +:+ url) w3
              else w3).
      split; [by destruct b|]. split; [|intros p [= <-] ?; congruence].
      trans (calls w3); [by destruct b|]. rewrite Hc3. subst w2.
      cbn [calls add_stdout]. rewrite Hc1. cbn [calls add_stdout].
      by rewrite <- app_assoc.
Qed.

(** C1, amended. For a fetched page whose first og:image [meta] element has
    a non-empty [content] [x] that [urljoin] resolves against the page URL
    to [j], the og:image result is [j]. The result is absent when there is
    no such element, when it has no [content] attribute and when that
    attribute is empty. *)
Theorem og_image_resolved_against_page url w r :
  fetched w url r →
  let soup := html_parser (text r) in
  (∀ t x j,
     og_image_element soup = Some t → Bs4.get t "content" = Some x →
     x ≠ "" → urljoin url x = inr j →
     ∃ w', get_page_metadata url w
           = (inr (Some j, title_of soup, description_of soup), w'))
  ∧ (og_image_element soup = None
     ∨ (∃ t, og_image_element soup = Some t
             ∧ (Bs4.get t "content" = None ∨ Bs4.get t "content" = Some "")) →
     ∃ w', get_page_metadata url w
           = (inr (None, title_of soup, description_of soup), w')).
Proof.
  intros Hfetch soup. pose proof (get_page_metadata_fetched url w r Hfetch) as Hrun.
  cbv zeta in Hrun. fold soup in Hrun. split.
  - intros t x j Ht Hx Hne Hj. rewrite Hrun.
    unfold og_content_of. rewrite Ht. cbn [mbind option_bind]. rewrite Hx.
    cbn [mbind option_bind]. apply truthy_true in Hne. rewrite Hne, Hj.
    by eexists.
  - intros Habs. rewrite Hrun.
    assert (og_content_of soup = None) as ->; [|by eexists].
    unfold og_content_of.
    destruct Habs as [Ht|(t & Ht & [Hx|Hx])]; rewrite Ht;
      cbn [mbind option_bind]; rewrite ?Hx; done.
Qed.

(** C6, amended. For a fetched page whose og:image resolves, the title is
    absent when there is no [title] element and is otherwise the trimmed
    text of the first one; the description is absent when there is no
    description [meta] element, when the first one has no [content]
    attribute and when that attribute is empty; otherwise it is the trimmed
    [content]. *)
Theorem title_and_description url w r :
  fetched w url r →
  let soup := html_parser (text r) in
  og_image_resolves url soup →
  ∃ og title description w',
    get_page_metadata url w = (inr (og, title, description), w')
    ∧ (title_element soup = None → title = None)
    ∧ (∀ t, title_element soup = Some t →
            title = Some (Py.strip (Bs4.get_text t)))
    ∧ (description_element soup = None → description = None)
    ∧ (∀ t, description_element soup = Some t →
            Bs4.get t "content" = None ∨ Bs4.get t "content" = Some "" →
            description = None)
    ∧ (∀ t x, description_element soup = Some t →
              Bs4.get t "content" = Some x → x ≠ "" →
              description = Some (Py.strip x)).
Proof.
  intros Hfetch soup Hres.
  pose proof (get_page_metadata_fetched url w r Hfetch) as Hrun.
  cbv zeta in Hrun. fold soup in Hrun.
  assert (Hog : ∃ og w', get_page_metadata url w
                  = (inr (og, title_of soup, description_of soup), w')).
  { rewrite Hrun. destruct (og_content_of soup) as [x|] eqn:Hx; [|by eexists _, _].
    unfold og_content_of in Hx.
    destruct (og_image_element soup) as [t|] eqn:Ht; [|done].
    cbn [mbind option_bind] in Hx.
    destruct (Bs4.get t "content") as [x'|] eqn:Hx'; [|done].
    cbn [mbind option_bind] in Hx.
    destruct (Py.truthy x') eqn:Htr; [|done]. injection Hx as <-.
    destruct (Hres t x') as [j ->]; try done; [by apply truthy_true|].
    by eexists _, _. }
  destruct Hog as (og & w' & Hog).
  exists og, (title_of soup), (description_of soup), w'. split; [done|].
  unfold title_of, description_of. repeat split.
  - by intros ->.
  - by intros t ->.
  - by intros ->.
  - intros t -> [Hx|Hx]; cbn [mbind option_bind]; by rewrite Hx.
  - intros t x -> Hx Hne%truthy_true. cbn [mbind option_bind].
    rewrite Hx. cbn [mbind option_bind]. by rewrite Hne.
Qed.

(** C3. [main] always returns an exit code: 0 when [dist] can be made and
    [urls.txt] can be read, whatever happens to the URLs after that, and 1
    otherwise. When [urls.txt] is missing the code is 1, no file is written,
    no component is called, no request is made, and at most the directory
    [dist] is created. *)
Theorem main_exit_code w :
  ∃ code w', main w = (inr code, w')
    ∧ code = (if dist_ok w && input_ok w then 0 else 1)
    ∧ (files w !! ["urls.txt"] = None →
       code = 1 ∧ files w' = files w ∧ calls w' = calls w
       ∧ requests_made w' = requests_made w
       ∧ (dirs w' = dirs w ∨ dirs w' = {[ ["dist"] ]} ∪ dirs w)).
Proof.
  destruct (dist_ok w && input_ok w) eqn:Hstart.
  - destruct (main_completes w Hstart) as (f & results & w' & Hf & Hrun & _).
    exists 0, w'. split; [done|]. split; [done|]. intros Hnone. congruence.
  - destruct (main_start_fails w Hstart) as (w' & Hrun & Hrest).
    exists 1, w'. done.
Qed.

(** C7. When [main] starts, the URL list it reads from [urls.txt] is the
    list of the trimmed lines of the file without the empty ones, in the
    order of the file and with repetitions kept. For each URL of that list,
    in order, [main] calls the extractor, then the image fetcher if and only
    if the extractor returned a (non-empty) image URL, then the writer with
    the title and the description the extractor returned: the calls of one
    turn of the loop are [calls_for] the result of the extractor. *)
Theorem driver_handles_url_list w :
  dist_ok w && input_ok w = true →
  ∃ f results w',
    files w !! ["urls.txt"] = Some f
    ∧ main w = (inr 0, w')
    ∧ read_urls f = url_list_spec (Py.readlines f)
    ∧ length results = length (read_urls f)
    ∧ calls w'
      = calls w ++ concat (zip_with (calls_for ["dist"]) (read_urls f) results)
    ∧ (∀ dist url w0,
         ∃ res w1, process_url dist url w0 = (inr (), w1)
           ∧ (get_page_metadata url (add_stdout ("Processing " +:+ url) w0)).1
             = inr res
           ∧ calls w1 = calls w0 ++ calls_for dist url res).
Proof.
  intros Hstart.
  destruct (main_completes w Hstart) as (f & results & w' & Hf & Hrun & Hlen & Hc).
  exists f, results, w'. repeat split; try done; [apply read_urls_spec|].
  intros dist url w0.
  destruct (process_url_run dist url w0) as (res & w1 & ? & ? & ? & _).
  by exists res, w1.
Qed.

End Claims.

(** * Concrete runs *)

(** The image at [/pics/cat.png] goes to [dist/cat.png], byte for byte. *)
Lemma download_image_names_file_witness :
  ∃ w', download_image "https://a.example.com/pics/cat.png" ["dist"] Fixture.w1
        = (inr true, w')
    ∧ files w' !! ["dist"; "cat.png"] = Some "PNGDATA".
Proof.
  destruct (download_image_names_file (H := fixture_env)
              "https://a.example.com/pics/cat.png" ["dist"] Fixture.w1
              (Fixture.ok_response "https://a.example.com/pics/cat.png"
                 ["PNG"; "DATA"])
              (mkParseResult "https" "a.example.com" "/pics/cat.png" "" "" ""))
    as (w' & Hrun & Hf & _).
  - repeat split; reflexivity.
  - reflexivity.
  - reflexivity.
  - reflexivity.
  - exists w'. split; [exact Hrun|]. rewrite Hf. apply lookup_insert_eq.
Defined.

(** A URL without a path gives [dist/image.jpg]. *)
Example download_image_fallback_name :
  ∃ w', download_image "https://example.com" ["dist"] Fixture.w1 = (inr true, w')
    ∧ files w' !! ["dist"; "image.jpg"] = Some "JPEG".
Proof. eexists. split; reflexivity. Qed.

(** A 404 leaves the file system alone. *)
Lemma bad_status_writes_nothing_witness :
  ∃ w', download_image "https://b.example.com/" ["dist"] Fixture.w1
        = (inr false, w')
    ∧ files w' = files Fixture.w1 ∧ dirs w' = dirs Fixture.w1.
Proof.
  apply (bad_status_writes_nothing (H := fixture_env) "https://b.example.com/"
           ["dist"] Fixture.w1
           (mkResponse 404 "Not Found" "https://b.example.com/" ["gone"] None));
    reflexivity.
Defined.

(** A body that breaks off leaves the part received in the file. *)
Example broken_body_leaves_partial_file :
  ∃ w', download_image "https://d.example.com/big.png" ["dist"] Fixture.w1
        = (inr false, w')
    ∧ files w' !! ["dist"; "big.png"] = Some "HALF".
Proof. eexists. split; reflexivity. Qed.

(** A refused connection makes the fetcher return false; the batch of
    [urls.txt] is handled to its end. *)
Lemma failures_never_abort_witness :
  (∃ w', download_image "https://nowhere.invalid/x.png" ["dist"] Fixture.w1
         = (inr false, w'))
  ∧ ∃ w', for_each (read_urls Fixture.urls_txt) (process_url ["dist"]) Fixture.w1
          = (inr (), w')
      ∧ saved_urls (calls w')
        = ["https://nowhere.invalid/"; "https://a.example.com/page";
           "https://b.example.com/"].
Proof.
  destruct (failures_never_abort (H := fixture_env)) as (Hd & _ & Hloop).
  split.
  - destruct (Hd "https://nowhere.invalid/x.png" ["dist"] Fixture.w1)
      as (b & w' & Hrun & _ & Hb & _).
    exists w'. rewrite Hrun, (Hb (RequestException "Connection refused")); reflexivity.
  - destruct (Hloop ["dist"] (read_urls Fixture.urls_txt) Fixture.w1)
      as (w' & Hrun & _ & Hs).
    exists w'. split; [exact Hrun|]. rewrite Hs. reflexivity.
Defined.

(** The example of the specification: an absent title and the description
    [hi] for [https://a.example.com/page]. *)
Lemma save_metadata_writes_host_file_witness :
  ∃ w', save_metadata "https://a.example.com/page" None (Some "hi") ["dist"]
          Fixture.w1 = (inr true, w')
    ∧ files w' !! ["dist"; "a.example.com.txt"]
      = Some ("URL: https://a.example.com/page" +:+ Py.nl +:+ Py.nl
                +:+ "Title: Not found" +:+ Py.nl +:+ Py.nl
                +:+ "Description: hi" +:+ Py.nl).
Proof.
  destruct (save_metadata_writes_host_file (H := fixture_env)
              "https://a.example.com/page" None (Some "hi") ["dist"] Fixture.w1
              (mkParseResult "https" "a.example.com" "/page" "" "" ""))
    as (w' & Hrun & Hf & _).
  - reflexivity.
  - reflexivity.
  - exists w'. split; [exact Hrun|]. rewrite Hf. apply lookup_insert_eq.
Defined.

(** C2, as stated, fails for a title that is present and empty: the file
    says [Not found] where the claim has the empty title written verbatim. *)
Lemma save_metadata_empty_title_counterexample :
  ∃ w', save_metadata "https://a.example.com/page" (Some "") (Some "hi") ["dist"]
          Fixture.w1 = (inr true, w')
    ∧ files w' !! ["dist"; "a.example.com.txt"]
      = Some (metadata_document "https://a.example.com/page" "Not found" "hi")
    ∧ files w' !! ["dist"; "a.example.com.txt"]
      ≠ Some (metadata_document "https://a.example.com/page"
                (verbatim_or_not_found (Some ""))
                (verbatim_or_not_found (Some "hi"))).
Proof. eexists. split; [reflexivity|]. split; [reflexivity|]. vm_compute. discriminate. Qed.

(** An empty title gives the file of an absent title. *)
Lemma empty_value_reads_not_found_witness :
  files (save_metadata "https://a.example.com/page" (Some "") (Some "hi")
           ["dist"] Fixture.w1).2 !! ["dist"; "a.example.com.txt"]
  = files (save_metadata "https://a.example.com/page" None (Some "hi")
             ["dist"] Fixture.w1).2 !! ["dist"; "a.example.com.txt"].
Proof.
  destruct (empty_value_reads_not_found (H := fixture_env)
              "https://a.example.com/page" (Some "hi") ["dist"] Fixture.w1
              (mkParseResult "https" "a.example.com" "/page" "" "" ""))
    as (_ & _ & Heq & _).
  - reflexivity.
  - reflexivity.
  - exact Heq.
Defined.

(** The page answered by 404 still gets its metadata file. *)
Lemma failed_extraction_is_recorded_witness :
  ∃ w', process_url ["dist"] "https://b.example.com/" Fixture.w1 = (inr (), w')
    ∧ calls w' = [Extracted "https://b.example.com/" (None, None, None);
                  Save "https://b.example.com/" None None ["dist"]]
    ∧ files w' !! ["dist"; "b.example.com.txt"]
      = Some (metadata_document "https://b.example.com/" "Not found" "Not found").
Proof.
  destruct (failed_extraction_is_recorded (H := fixture_env) ["dist"]
              "https://b.example.com/" Fixture.w1) as (_ & w' & Hrun & Hc & Hf).
  - left. intros r (Hnet & Hst & _). vm_compute in Hnet.
    injection Hnet as <-. vm_compute in Hst. discriminate.
  - exists w'. split; [exact Hrun|]. split; [exact Hc|].
    rewrite (Hf (mkParseResult "https" "b.example.com" "/" "" "" ""));
      [apply lookup_insert_eq|reflexivity|reflexivity].
Defined.

(** The og:image [/pics/cat.png] of [https://a.example.com/page]. *)
Lemma og_image_resolved_against_page_witness :
  ∃ w', get_page_metadata "https://a.example.com/page" Fixture.w1
        = (inr (Some "https://a.example.com/pics/cat.png", Some "Foo", Some "Bar"),
           w').
Proof.
  destruct (og_image_resolved_against_page (H := fixture_env)
              "https://a.example.com/page" Fixture.w1
              (Fixture.ok_response "https://a.example.com/page" [Fixture.html_a]))
    as [Hsome _].
  - repeat split; reflexivity.
  - apply (Hsome (Tag "meta" (Fixture.attrs [("property", "og:image");
                                             ("content", "/pics/cat.png")]) [])
             "/pics/cat.png" "https://a.example.com/pics/cat.png");
      [reflexivity|reflexivity|discriminate|reflexivity].
Defined.

(** C1, as stated, fails for an empty [content]: the element carries the
    attribute, resolving its value gives the page URL, and the result is
    absent. *)
Lemma og_image_empty_content_counterexample :
  ∃ r t,
    fetched Fixture.w1 "https://c.example.com/" r
    ∧ og_image_element (html_parser (text r)) = Some t
    ∧ Bs4.get t "content" = Some ""
    ∧ urljoin "https://c.example.com/" "" = inr "https://c.example.com/"
    ∧ (get_page_metadata "https://c.example.com/" Fixture.w1).1
      = inr (None, Some "", None).
Proof.
  exists (Fixture.ok_response "https://c.example.com/" [Fixture.html_c]),
    (Tag "meta" (Fixture.attrs [("property", "og:image"); ("content", "")]) []).
  repeat split; reflexivity.
Qed.

(** The title [  Foo  ] and the description [  Bar  ], trimmed. *)
Lemma title_and_description_witness :
  ∃ og w', get_page_metadata "https://a.example.com/page" Fixture.w1
           = (inr (og, Some "Foo", Some "Bar"), w').
Proof.
  destruct (title_and_description (H := fixture_env)
              "https://a.example.com/page" Fixture.w1
              (Fixture.ok_response "https://a.example.com/page" [Fixture.html_a]))
    as (og & title & description & w' & Hrun & _ & Ht & _ & _ & Hd).
  - repeat split; reflexivity.
  - intros t x Ht Hx _. vm_compute in Ht. injection Ht as <-.
    vm_compute in Hx. injection Hx as <-. by eexists.
  - exists og, w'. rewrite Hrun.
    rewrite (Ht (Tag "title" ∅ [NavigableString "  Foo  "])) by reflexivity.
    rewrite (Hd (Tag "meta" (Fixture.attrs [("name", "description");
                                            ("content", "  Bar  ")]) [])
               "  Bar  ") by (reflexivity || discriminate).
    reflexivity.
Defined.

(** C6, as stated, fails for a description element with an empty
    [content]: the claim has the trimmed content, the empty string,
    returned; the result is absent. *)
Lemma description_empty_content_counterexample :
  ∃ r t,
    fetched Fixture.w1 "https://c.example.com/" r
    ∧ description_element (html_parser (text r)) = Some t
    ∧ Bs4.get t "content" = Some ""
    ∧ (get_page_metadata "https://c.example.com/" Fixture.w1).1
      = inr (None, Some "", None)
    ∧ (None : option string) ≠ Some (Py.strip "").
Proof.
  exists (Fixture.ok_response "https://c.example.com/" [Fixture.html_c]),
    (Tag "meta" (Fixture.attrs [("name", "description"); ("content", "")]) []).
  repeat split; try reflexivity. discriminate.
Qed.

(** Without [urls.txt]: exit code 1 and an untouched, empty set of files. *)
Lemma main_exit_code_witness :
  ∃ w', main Fixture.w_empty = (inr 1, w') ∧ files w' = ∅ ∧ calls w' = [].
Proof.
  destruct (main_exit_code (H := fixture_env) Fixture.w_empty)
    as (code & w' & Hrun & _ & Hmiss).
  destruct (Hmiss eq_refl) as (-> & Hf & Hc & _).
  exists w'. split; [exact Hrun|]. split; [exact Hf|exact Hc].
Defined.

(** The run on the [urls.txt] of the test directory. *)
Lemma driver_handles_url_list_witness :
  ∃ w', main Fixture.w0 = (inr 0, w')
    ∧ extracted_urls (calls w')
      = ["https://nowhere.invalid/"; "https://a.example.com/page";
         "https://b.example.com/"].
Proof.
  destruct (driver_handles_url_list (H := fixture_env) Fixture.w0)
    as (f & results & w' & Hf & Hrun & Hspec & Hlen & Hc & _).
  - reflexivity.
  - exists w'. split; [exact Hrun|].
    vm_compute in Hf. injection Hf as <-.
    rewrite Hc. clear Hc Hrun Hspec.
    destruct results as [|r1 [|r2 [|r3 [|r4 results]]]]; try discriminate Hlen.
    cbn [calls Fixture.w0 app].
    match goal with
    | |- context [read_urls ?s] =>
        change (read_urls s)
          with ["https://nowhere.invalid/"; "https://a.example.com/page";
                "https://b.example.com/"]
    end.
    cbn [zip_with concat]. rewrite !extracted_urls_app, !extracted_urls_calls_for.
    reflexivity.
Defined.
